(** * Diabetic-retinopathy detection app: a shallow embedding of [main.py]

    The Streamlit script is embedded as state-passing code over a [world]
    (the database handle, [st.session_state], the elements rendered so far
    and the log of database calls).  One run of the script is one
    evaluation of [main]; [st.experimental_rerun()] and Python exceptions
    end the run early and are the two abnormal outcomes of the monad.

    Classifier scores are finite floats in the program; the script only
    compares and copies them, so they are modelled as rationals ([Q]). *)

From stdpp Require Import gmap strings list fin_maps.
From Stdlib Require Import QArith Lqa Sorted.

Local Open Scope string_scope.

(** ** Exceptions *)

(** The failure taxonomy of the application layer. *)
Inductive app_error :=
| InvalidCredentials
| DuplicateUsername
| ValidationError
| StorageError
| DecodeError
| PersistenceError.

(** Python exceptions that a script run can raise.  All of them derive
    from [Exception], so an [except Exception] clause catches them. *)
Inductive exn :=
| IndexError
| ValueError
| TypeError
| Failure (kind : app_error) (msg : string).

(** [str(e)] *)
Definition exn_str (e : exn) : string :=
  match e with
  | IndexError => "list index out of range"
  | ValueError => "attempt to get argmax of an empty sequence"
  | TypeError => "'NoneType' object is not subscriptable"
  | Failure _ msg => msg
  end.

(** ** Rows of the two tables, as the script reads them *)

Record User := mkUser {
  u_id : nat;
  u_username : string;
  u_email : string;
  u_password : string;            (* stored credential *)
  u_full_name : option string;    (* may be NULL: [user['full_name'] or ""] *)
  u_created_at : nat
}.

Record PredictionRecord := mkPrediction {
  p_id : nat;
  p_user_id : nat;
  p_image_path : string;
  p_prediction_class : string;
  p_confidence : Q;
  p_created_at : nat
}.

(** ** numpy *)

Module Numpy.

(** Scan of [np.argmax] over a flat array: the running maximum is
    replaced only by a strictly larger entry, so the first occurrence of
    the maximum wins. *)
Fixpoint argmax_from (best_i : nat) (best : Q) (i : nat) (l : list Q) : nat :=
  match l with
  | [] => best_i
  | x :: t =>
      if Qle_bool x best then argmax_from best_i best (S i) t
      else argmax_from i x (S i) t
  end.

(** [np.argmax(a)] on a flat array; [ValueError] on an empty one. *)
Definition argmax_flat (l : list Q) : exn + nat :=
  match l with
  | [] => inl ValueError
  | x :: t => inr (argmax_from 0 x 1 t)
  end.

(** [np.argmax(a)] without [axis] on a 2-D array: index into the
    flattened (row-major) array. *)
Definition argmax (a : list (list Q)) : exn + nat :=
  argmax_flat (concat a).

(** [a[r][c]] *)
Definition item (a : list (list Q)) (r c : nat) : exn + Q :=
  match a !! r with
  | None => inl IndexError
  | Some row =>
      match row !! c with
      | None => inl IndexError
      | Some x => inr x
      end
  end.

(** Specification of an arg-max index: in range, a maximum, and the
    first position that holds the maximum. *)
Definition is_argmax (l : list Q) (i : nat) : Prop :=
  ∃ x, l !! i = Some x
       ∧ (∀ j y, l !! j = Some y → (y <= x)%Q)
       ∧ (∀ j y, (j < i)%nat → l !! j = Some y → (y < x)%Q).

End Numpy.

(** ** Module-level constants of the script *)

Definition image_height : nat := 150.
Definition image_width : nat := 150.
Definition class_names : list string :=
  ["Mild"; "Moderate"; "Severe"; "Proliferative DR"].

(** [class_names[i]]: a Python list index by a non-negative integer. *)
Definition list_getitem {A} (l : list A) (i : nat) : exn + A :=
  match l !! i with
  | Some x => inr x
  | None => inl IndexError
  end.

(** [remedies_data.get(label, 'No remedy available')], where
    [remedies_data] is the dict read from [remedies.json]. *)
Definition remedy_fallback : string := "No remedy available".

Definition remedy_lookup (remedies_data : gmap string string) (label : string) : string :=
  default remedy_fallback (remedies_data !! label).

(** ** The database interface used by the script ([db_module.Database]) *)

Class Database (DB : Type) := {
  authenticate_user : DB → string → string → exn + option User;
  create_user : DB → string → string → string → string → exn + DB;
  save_prediction : DB → nat → string → string → Q → exn + DB;
  get_user_predictions : DB → nat → exn + list PredictionRecord;
  get_user_by_id : DB → nat → exn + option User;
  update_user_profile : DB → nat → string → string → exn + DB
}.

(** Calls made on [db], in the order the script makes them. *)
Inductive db_call :=
| CallAuthenticateUser (username password : string)
| CallCreateUser (username email password full_name : string)
| CallSavePrediction (uid : nat) (image_path cls : string) (confidence : Q)
| CallGetUserPredictions (uid : nat)
| CallGetUserById (uid : nat)
| CallUpdateUserProfile (uid : nat) (full_name email : string).

(** ** Helpers imported from [utils], the model, PIL and the file access
       of [st.image] *)

Class Utils (upload tensor : Type) := {
  image_open : upload → exn + unit;
  image_file_load : string → exn + unit;  (* [st.image(path)] opens the file *)
  save_uploaded_file : upload → exn + string;
  preprocess_image : string → exn + tensor;
  model_predict : tensor → exn + list (list Q);
  plot_prediction_history : list PredictionRecord → bool;  (* is [fig] truthy *)
  format_date : nat → string;
  get_class_color : string → string
}.

(** ** Streamlit elements written to the page *)

Inductive ui :=
| PageConfig (page_title layout : string)
| Title (s : string)
| Header (s : string)
| Subheader (s : string)
| ImageFile (path : string)
| ImageUploaded (caption : string)
| TextInput (label : string)
| FileUploader (label : string)
| Button (label : string)
| FormSubmitButton (label : string)
| Success (s : string)
| Error (s : string)
| Info (s : string)
| Expander (label : string)
| MdPredictedClass (cls : string)
| MdClass (cls : string)
| MdConfidence (c : Q)
| MdRemedy (s : string)
| MdDate (s : string)
| MdUsername (s : string)
| ConfidenceChart (prediction : list (list Q)) (labels : list string)
| HistoryChart (predictions : list PredictionRecord)
| SeverityBanner (color cls : string).

(** ** Widget state of one script run *)

Record inputs (upload : Type) := mkInputs {
  file_exists : string → bool;          (* [os.path.exists] *)
  in_login_username : string;
  in_login_password : string;
  in_login_submit : bool;
  in_signup_username : string;
  in_signup_email : string;
  in_signup_password : string;
  in_signup_confirm : string;
  in_signup_full_name : string;
  in_signup_submit : bool;
  in_uploaded_file : option upload;
  in_predict : bool;
  in_profile_email : option string;     (* [None]: the default [value=] is kept *)
  in_profile_full_name : option string;
  in_profile_submit : bool;
  in_btn_home : bool;
  in_btn_history : bool;
  in_btn_profile : bool;
  in_btn_logout : bool
}.

Arguments file_exists {upload}.
Arguments in_login_username {upload}.
Arguments in_login_password {upload}.
Arguments in_login_submit {upload}.
Arguments in_signup_username {upload}.
Arguments in_signup_email {upload}.
Arguments in_signup_password {upload}.
Arguments in_signup_confirm {upload}.
Arguments in_signup_full_name {upload}.
Arguments in_signup_submit {upload}.
Arguments in_uploaded_file {upload}.
Arguments in_predict {upload}.
Arguments in_profile_email {upload}.
Arguments in_profile_full_name {upload}.
Arguments in_profile_submit {upload}.
Arguments in_btn_home {upload}.
Arguments in_btn_history {upload}.
Arguments in_btn_profile {upload}.
Arguments in_btn_logout {upload}.

(** ** The world a script run acts on *)

Record world (DB : Type) := mkWorld {
  db : DB;
  user : option User;        (* [st.session_state.user] *)
  page : string;             (* [st.session_state.page] *)
  out : list ui;             (* elements rendered so far, oldest first *)
  calls : list db_call       (* database calls so far, oldest first *)
}.

Arguments mkWorld {DB}.
Arguments db {DB}.
Arguments user {DB}.
Arguments page {DB}.
Arguments out {DB}.
Arguments calls {DB}.

(** Session state at the first run of a session (lines 34-37). *)
Definition initial_world {DB} (d : DB) : world DB :=
  mkWorld d None "login" [] [].

(** ** The script monad: state, exceptions and rerun requests *)

Inductive outcome (A : Type) :=
| Done (a : A)
| Rerun                 (* [st.experimental_rerun()]: not an [Exception] *)
| Raised (e : exn).

Arguments Done {A}.
Arguments Rerun {A}.
Arguments Raised {A}.

Definition M (DB A : Type) : Type := world DB → outcome A * world DB.

Definition ret {DB A} (a : A) : M DB A := fun w => (Done a, w).

Definition bind {DB A B} (m : M DB A) (k : A → M DB B) : M DB B :=
  fun w =>
    match m w with
    | (Done a, w') => k a w'
    | (Rerun, w') => (Rerun, w')
    | (Raised e, w') => (Raised e, w')
    end.

Declare Scope script_scope.
Delimit Scope script_scope with script.
Bind Scope script_scope with M.

Notation "x <- m ;; k" := (bind m (fun x => k))
  (at level 100, m at next level, k at level 200, right associativity)
  : script_scope.
Notation "m ;; k" := (bind m (fun _ => k))
  (at level 100, k at level 200, right associativity) : script_scope.

Local Open Scope script_scope.

Definition raise {DB A} (e : exn) : M DB A := fun w => (Raised e, w).

Definition experimental_rerun {DB A} : M DB A := fun w => (Rerun, w).

(** [try: body except Exception as e: handler e].  A rerun request is
    not an [Exception] and passes through. *)
Definition try_except {DB A} (body : M DB A) (handler : exn → M DB A) : M DB A :=
  fun w =>
    match body w with
    | (Raised e, w') => handler e w'
    | r => r
    end.

(** Result of a helper that may raise. *)
Definition lift {DB A} (r : exn + A) : M DB A :=
  match r with
  | inl e => raise e
  | inr a => ret a
  end.

(** [st.<element>(...)] *)
Definition st {DB} (e : ui) : M DB unit :=
  fun w => (Done tt, mkWorld (db w) (user w) (page w) (out w ++ [e]) (calls w)).

Definition set_user {DB} (u : option User) : M DB unit :=
  fun w => (Done tt, mkWorld (db w) u (page w) (out w) (calls w)).

Definition set_page {DB} (p : string) : M DB unit :=
  fun w => (Done tt, mkWorld (db w) (user w) p (out w) (calls w)).

Definition get_user {DB} : M DB (option User) := fun w => (Done (user w), w).

Definition get_page {DB} : M DB string := fun w => (Done (page w), w).

(** [st.session_state.user['id']] *)
Definition session_user_id {DB} : M DB nat :=
  u <- get_user ;;
  match u with
  | Some u => ret (u_id u)
  | None => raise TypeError
  end.

Definition log_call {DB} (c : db_call) : M DB unit :=
  fun w => (Done tt, mkWorld (db w) (user w) (page w) (out w) (calls w ++ [c])).

(** A database read: the call is logged, the handle is unchanged. *)
Definition db_read {DB A} (c : db_call) (f : DB → exn + A) : M DB A :=
  log_call c ;;
  fun w => lift (f (db w)) w.

(** A database write: on success the handle is replaced. *)
Definition db_write {DB} (c : db_call) (f : DB → exn + DB) : M DB unit :=
  log_call c ;;
  fun w =>
    match f (db w) with
    | inl e => (Raised e, w)
    | inr d => (Done tt, mkWorld d (user w) (page w) (out w) (calls w))
    end.

(** [for x in l: body x] *)
Fixpoint for_each {DB A} (l : list A) (body : A → M DB unit) : M DB unit :=
  match l with
  | [] => ret tt
  | x :: t => body x ;; for_each t body
  end.

(** ** The pages of the script *)

Section App.

Context {DB : Type} `{Database DB}.
Context {upload tensor : Type} `{Utils upload tensor}.

(** The dict loaded from [remedies.json] at start-up (lines 25-26). *)
Variable remedies_data : gmap string string.

(** The widget state of the run. *)
Variable i : inputs upload.

(** [login_form] (lines 39-53) *)
Definition login_form : M DB unit :=
  st (TextInput "Username") ;;
  st (TextInput "Password") ;;
  st (FormSubmitButton "Login") ;;
  if in_login_submit i then
    u <- db_read (CallAuthenticateUser (in_login_username i) (in_login_password i))
           (fun d => authenticate_user d (in_login_username i) (in_login_password i)) ;;
    match u with
    | Some u =>
        set_user (Some u) ;;
        set_page "home" ;;
        st (Success "Login successful!") ;;
        experimental_rerun
    | None => st (Error "Invalid username or password")
    end
  else ret tt.

(** [signup_form] (lines 55-74) *)
Definition signup_form : M DB unit :=
  st (TextInput "Username") ;;
  st (TextInput "Email") ;;
  st (TextInput "Password") ;;
  st (TextInput "Confirm Password") ;;
  st (TextInput "Full Name") ;;
  st (FormSubmitButton "Sign Up") ;;
  if in_signup_submit i then
    if negb (String.eqb (in_signup_password i) (in_signup_confirm i)) then
      st (Error "Passwords do not match!")
    else
      try_except
        (db_write (CallCreateUser (in_signup_username i) (in_signup_email i)
                     (in_signup_password i) (in_signup_full_name i))
           (fun d => create_user d (in_signup_username i) (in_signup_email i)
                       (in_signup_password i) (in_signup_full_name i)) ;;
         st (Success "Account created successfully! Please login.") ;;
         set_page "login" ;;
         experimental_rerun)
        (fun e => st (Error ("Error creating account: " ++ exn_str e)))
  else ret tt.

(** [auth_page] (lines 76-97): both tabs are run in either layout. *)
Definition auth_page : M DB unit :=
  st (Title "Diabetic Retinopathy Detection") ;;
  st (Subheader "Welcome to the DR Detection System") ;;
  if file_exists i "assets/login_image.png" then
    st (ImageFile "assets/login_image.png") ;;
    login_form ;;
    signup_form
  else
    login_form ;;
    signup_form.

(** Lines 118-151 of [home_page]: from the model's output to the
    rendered result. *)
Definition home_page_predict (image_path : string) (prediction : list (list Q))
  : M DB unit :=
  predicted_class_index <- lift (Numpy.argmax prediction) ;;
  predicted_class <- lift (list_getitem class_names predicted_class_index) ;;
  confidence <- lift (Numpy.item prediction 0 predicted_class_index) ;;
  uid <- session_user_id ;;
  db_write (CallSavePrediction uid image_path predicted_class confidence)
    (fun d => save_prediction d uid image_path predicted_class confidence) ;;
  st (Subheader "Prediction Results") ;;
  st (MdPredictedClass predicted_class) ;;
  st (MdConfidence confidence) ;;
  st (MdRemedy (remedy_lookup remedies_data predicted_class)) ;;
  st (ConfidenceChart prediction class_names) ;;
  st (SeverityBanner (get_class_color predicted_class) predicted_class).

(** [home_page] (lines 99-151) *)
Definition home_page : M DB unit :=
  st (Title "Diabetic Retinopathy Detection") ;;
  st (Header "Upload Retinal Image") ;;
  st (FileUploader "Choose an image...") ;;
  match in_uploaded_file i with
  | Some uploaded_file =>
      lift (image_open uploaded_file) ;;
      st (ImageUploaded "Uploaded Image") ;;
      st (Button "Predict") ;;
      if in_predict i then
        image_path <- lift (save_uploaded_file uploaded_file) ;;
        img_array <- lift (preprocess_image image_path) ;;
        prediction <- lift (model_predict img_array) ;;
        home_page_predict image_path prediction
      else ret tt
  | None => ret tt
  end.

(** Body of the loop of [history_page] (lines 165-174).  The image is
    read from the path stored with the record; [st.image] raises when that
    file cannot be opened. *)
Definition history_entry (pred : PredictionRecord) : M DB unit :=
  st (Expander ("Prediction on " ++ format_date (p_created_at pred))) ;;
  lift (image_file_load (p_image_path pred)) ;;
  st (ImageFile (p_image_path pred)) ;;
  st (MdClass (p_prediction_class pred)) ;;
  st (MdConfidence (p_confidence pred)) ;;
  st (MdDate (format_date (p_created_at pred))).

(** [history_page] (lines 153-180) *)
Definition history_page : M DB unit :=
  st (Title "Prediction History") ;;
  uid <- session_user_id ;;
  predictions <- db_read (CallGetUserPredictions uid)
                   (fun d => get_user_predictions d uid) ;;
  match predictions with
  | [] => st (Info "No prediction history available.")
  | _ :: _ =>
      for_each predictions history_entry ;;
      st (Subheader "Prediction Trend") ;;
      if plot_prediction_history predictions then
        st (HistoryChart predictions)
      else ret tt
  end.

(** [profile_page] (lines 182-198) *)
Definition profile_page : M DB unit :=
  st (Title "User Profile") ;;
  uid <- session_user_id ;;
  row <- db_read (CallGetUserById uid) (fun d => get_user_by_id d uid) ;;
  match row with
  | None => raise TypeError
  | Some u =>
      st (MdUsername (u_username u)) ;;
      st (TextInput "Email") ;;
      st (TextInput "Full Name") ;;
      st (FormSubmitButton "Update Profile") ;;
      let email := default (u_email u) (in_profile_email i) in
      let full_name :=
        default (default "" (u_full_name u)) (in_profile_full_name i) in
      if in_profile_submit i then
        try_except
          (db_write (CallUpdateUserProfile (u_id u) full_name email)
             (fun d => update_user_profile d (u_id u) full_name email) ;;
           st (Success "Profile updated successfully!"))
          (fun e => st (Error ("Error updating profile: " ++ exn_str e)))
      else ret tt
  end.

(** Sidebar of [main] (lines 208-231), entered when the session user is
    truthy. *)
Definition sidebar : M DB unit :=
  (if file_exists i "assets/logo.png" then st (ImageFile "assets/logo.png")
   else ret tt) ;;
  st (Title "Navigation") ;;
  st (Button "Home") ;;
  (if in_btn_home i then set_page "home" ;; experimental_rerun else ret tt) ;;
  st (Button "History") ;;
  (if in_btn_history i then set_page "history" ;; experimental_rerun else ret tt) ;;
  st (Button "Profile") ;;
  (if in_btn_profile i then set_page "profile" ;; experimental_rerun else ret tt) ;;
  st (Button "Logout") ;;
  (if in_btn_logout i then
     set_user None ;; set_page "login" ;; experimental_rerun
   else ret tt).

(** Page routing of [main] (lines 234-242). *)
Definition routing : M DB unit :=
  u <- get_user ;;
  match u with
  | None => auth_page
  | Some _ =>
      p <- get_page ;;
      if String.eqb p "home" then home_page
      else if String.eqb p "history" then history_page
      else if String.eqb p "profile" then profile_page
      else ret tt
  end.

(** [main] (lines 200-242) *)
Definition main : M DB unit :=
  st (PageConfig "Diabetic Retinopathy Detection" "wide") ;;
  u <- get_user ;;
  (match u with
   | Some _ => sidebar
   | None => ret tt
   end) ;;
  routing.

End App.

(** ** The storage backend

    [db_module] is not part of the sources at hand; the backend below
    follows the contracts of the specification (sections 3, 4.5, 4.6). *)

Module SpecDb.

Record t := mk {
  users : list User;
  predictions : list PredictionRecord;
  next_user_id : nat;
  next_prediction_id : nat;
  now : nat;                 (* the server clock *)
  storage_ok : bool          (* [false]: writes fail *)
}.

Definition empty : t := mk [] [] 1 1 0 true.

Definition persistence_error : exn :=
  Failure PersistenceError "storage failure".

Definition duplicate_username : exn :=
  Failure DuplicateUsername "username already exists".

(** Modelled from the spec: [listByUser] orders a user's records by
    creation time; the order chosen here is ascending, records with
    equal timestamps staying in insertion order. *)
Fixpoint insert_by_time (p : PredictionRecord) (l : list PredictionRecord)
  : list PredictionRecord :=
  match l with
  | [] => [p]
  | q :: t =>
      if (p_created_at p <=? p_created_at q)%nat then p :: q :: t
      else q :: insert_by_time p t
  end.

Fixpoint sort_by_time (l : list PredictionRecord) : list PredictionRecord :=
  match l with
  | [] => []
  | p :: t => insert_by_time p (sort_by_time t)
  end.

Definition owned_by (uid : nat) (p : PredictionRecord) : bool :=
  (p_user_id p =? uid)%nat.

Definition has_username (name : string) (u : User) : bool :=
  String.eqb (u_username u) name.

Definition has_id (uid : nat) (u : User) : bool := (u_id u =? uid)%nat.

(** Records are listed oldest first. *)
Definition older_or_same (a b : PredictionRecord) : Prop :=
  (p_created_at a ≤ p_created_at b)%nat.

(** States of the backend that its own operations can produce: record
    ids are below the next id to assign, and usernames are unique. *)
Definition wf (d : t) : Prop :=
  (∀ r, r ∈ predictions d → (p_id r < next_prediction_id d)%nat)
  ∧ NoDup (map u_username (users d)).

Section Backend.

(** The password-hashing scheme of the data model (credential =
    hash of the password). *)
Variable hash : string → string.

(** Modelled from the spec: [authenticate(username, password)] of
    section 4.6, which [db_module] implements.  The script tests the
    result for truthiness, so invalid credentials are the empty
    result, which [login_form] reports. *)
Definition authenticate_user (d : t) (username password : string)
  : exn + option User :=
  match List.find (has_username username) (users d) with
  | Some u =>
      if String.eqb (u_password u) (hash password) then inr (Some u)
      else inr None
  | None => inr None
  end.

(** Modelled from the spec: [createUser(username, email, password,
    full_name)] of section 4.6; usernames are unique, ids and
    timestamps are assigned by the server. *)
Definition create_user (d : t) (username email password full_name : string)
  : exn + t :=
  if negb (storage_ok d) then inl persistence_error
  else if existsb (has_username username) (users d) then inl duplicate_username
  else
    inr (mk (users d ++ [mkUser (next_user_id d) username email (hash password)
                           (Some full_name) (now d)])
            (predictions d) (S (next_user_id d)) (next_prediction_id d)
            (now d) (storage_ok d)).

(** Modelled from the spec: [record(user_id, image_path, class_label,
    confidence)] of section 4.5: one new immutable record with a
    server-assigned id and timestamp, or [PersistenceError]. *)
Definition new_record (d : t) (uid : nat) (image_path cls : string) (confidence : Q)
  : PredictionRecord :=
  mkPrediction (next_prediction_id d) uid image_path cls confidence (now d).

Definition save_prediction (d : t) (uid : nat) (image_path cls : string)
    (confidence : Q) : exn + t :=
  if negb (storage_ok d) then inl persistence_error
  else
    inr (mk (users d)
            (predictions d ++ [new_record d uid image_path cls confidence])
            (next_user_id d) (S (next_prediction_id d))
            (now d) (storage_ok d)).

(** Modelled from the spec: [listByUser(user_id)] of section 4.5. *)
Definition get_user_predictions (d : t) (uid : nat)
  : exn + list PredictionRecord :=
  inr (sort_by_time (filter (fun p => owned_by uid p = true) (predictions d))).

(** Modelled from the spec: the user row of the data model, by id. *)
Definition get_user_by_id (d : t) (uid : nat) : exn + option User :=
  inr (List.find (has_id uid) (users d)).

Definition set_profile (uid : nat) (full_name email : string) (u : User) : User :=
  if has_id uid u then
    mkUser (u_id u) (u_username u) email (u_password u) (Some full_name)
      (u_created_at u)
  else u.

(** Modelled from the spec: profile updates change [email] and
    [full_name] of one user row. *)
Definition update_user_profile (d : t) (uid : nat) (full_name email : string)
  : exn + t :=
  if negb (storage_ok d) then inl persistence_error
  else
    inr (mk (map (set_profile uid full_name email) (users d))
            (predictions d) (next_user_id d) (next_prediction_id d)
            (now d) (storage_ok d)).

(** The backend as an implementation of the interface the script
    calls (operations in the order of the class). *)
Definition database : Database t :=
  Build_Database t authenticate_user create_user save_prediction
    get_user_predictions get_user_by_id update_user_profile.

End Backend.

End SpecDb.


(** ** Concrete inputs used by the examples *)

Module Sample.

(** Uploads are file names, tensors are the model's answer for them. *)
Definition utils : Utils string (list (list Q)) := {|
  image_open := fun _ => inr tt;
  image_file_load := fun _ => inr tt;
  save_uploaded_file := fun name => inr ("uploads/" ++ name);
  preprocess_image := fun _ => inr [[1#10; 7#10; 1#10; 1#10]];
  model_predict := fun t => inr t;
  plot_prediction_history := fun l => negb (bool_decide (l = []));
  format_date := fun _ => "2024-01-01";
  get_class_color := fun _ => "#ff0000"
|}.

(** A run in which no widget was touched. *)
Definition idle : inputs string :=
  mkInputs string (fun _ => false) "" "" false "" "" "" "" "" false
    None false None None false false false false false.

Definition sign_up (name email pw confirm full : string) : inputs string :=
  mkInputs string (fun _ => false) "" "" false name email pw confirm full true
    None false None None false false false false false.

Definition log_in (name pw : string) : inputs string :=
  mkInputs string (fun _ => false) name pw true "" "" "" "" "" false
    None false None None false false false false false.

Definition click_logout : inputs string :=
  mkInputs string (fun _ => false) "" "" false "" "" "" "" "" false
    None false None None false false false false true.

(** A toy credential scheme, enough to tell passwords apart. *)
Definition hash (pw : string) : string := "h:" ++ pw.

Definition alice : User :=
  mkUser 1 "alice" "alice@example.org" (hash "secret") (Some "Alice A.") 0.

Definition store : SpecDb.t := SpecDb.mk [alice] [] 2 1 5 true.

Definition remedies : gmap string string :=
  <["Mild" := "Regular eye check-ups"]> (<["Severe" := "See a specialist"]> ∅).

Definition logged_in (p : string) : world SpecDb.t :=
  mkWorld store (Some alice) p [] [].

Definition logged_out : world SpecDb.t := mkWorld store None "login" [] [].

(** Scores of one image over the four classes. *)
Definition scores : list Q := [1#10; 7#10; 1#10; 1#10].

(** Output of a model with five output units. *)
Definition five_scores : list Q := [1#10; 1#10; 1#10; 1#10; 6#10].

(** A run of lines 118-151 for alice on the one-image batch [[v]]. *)
Definition predict_run (v : list Q) : outcome unit * world SpecDb.t :=
  home_page_predict (H := SpecDb.database hash) (H0 := utils)
    remedies "uploads/eye.png" [v] (logged_in "home").

End Sample.


(** ** Expected renderings, used to state the properties *)

(** Elements of the result panel (lines 132-151) for class [c] with
    confidence [p]. *)
Definition prediction_results {upload tensor} `{Utils upload tensor}
    (remedies_data : gmap string string) (prediction : list (list Q))
    (c : string) (p : Q) : list ui :=
  [ Subheader "Prediction Results";
    MdPredictedClass c;
    MdConfidence p;
    MdRemedy (remedy_lookup remedies_data c);
    ConfidenceChart prediction class_names;
    SeverityBanner (get_class_color c) c ].

(** Widgets of the two forms of the authentication page. *)
Definition login_widgets : list ui :=
  [ TextInput "Username"; TextInput "Password"; FormSubmitButton "Login" ].

Definition signup_widgets : list ui :=
  [ TextInput "Username"; TextInput "Email"; TextInput "Password";
    TextInput "Confirm Password"; TextInput "Full Name";
    FormSubmitButton "Sign Up" ].

(** Elements of the sidebar when no navigation button is clicked. *)
Definition sidebar_elements {upload} (i : inputs upload) : list ui :=
  (if file_exists i "assets/logo.png" then [ImageFile "assets/logo.png"] else [])
  ++ [ Title "Navigation"; Button "Home"; Button "History"; Button "Profile";
       Button "Logout" ].

(** The score range of the data model. *)
Definition in_unit_interval (q : Q) : Prop := (0 <= q)%Q ∧ (q <= 1)%Q.


(** What a run of lines 118-151 on the one-image batch [[v]] amounts to,
    given the chosen index [idx] and its score [p]: the class at [idx] and
    [p] go to [save_prediction] and then to the page; without a class at
    [idx] the run stops with [IndexError] and the world is untouched. *)
Definition workflow_result {DB : Type} `{Database DB}
    {upload tensor : Type} `{Utils upload tensor}
    (remedies_data : gmap string string) (image_path : string)
    (v : list Q) (u : User) (w : world DB) (idx : nat) (p : Q) : Prop :=
  match class_names !! idx with
  | Some c =>
      match save_prediction (db w) (u_id u) image_path c p with
      | inr d' =>
          home_page_predict remedies_data image_path [v] w
          = (Done tt,
             mkWorld d' (user w) (page w)
               (out w ++ prediction_results remedies_data [v] c p)
               (calls w ++ [CallSavePrediction (u_id u) image_path c p]))
      | inl e =>
          home_page_predict remedies_data image_path [v] w
          = (Raised e,
             mkWorld (db w) (user w) (page w) (out w)
               (calls w ++ [CallSavePrediction (u_id u) image_path c p]))
      end
  | None =>
      home_page_predict remedies_data image_path [v] w = (Raised IndexError, w)
  end.


(** The invariant of the data model on the class and confidence of a
    prediction record. *)
Definition record_invariant (cls : string) (confidence : Q) : Prop :=
  cls ∈ class_names ∧ in_unit_interval confidence.

(** An output vector of length [n] whose last score is the largest. *)
Definition spike (n : nat) : list Q := replicate (pred n) 0%Q ++ [1%Q].


(** The first call of [main]. *)
Definition page_config : ui := PageConfig "Diabetic Retinopathy Detection" "wide".

(** Elements that only the sidebar and the pages behind the login write:
    the navigation title, the upload header of [home_page] and the titles
    of [history_page] and [profile_page]. *)
Definition authenticated_element (e : ui) : bool :=
  match e with
  | Title s =>
      String.eqb s "Navigation" || String.eqb s "Prediction History"
      || String.eqb s "User Profile"
  | Header _ | FileUploader _ | Button _ => true
  | _ => false
  end.


(** [emits P m]: a run of [m] only appends to the page, and every element
    it appends satisfies [P]. *)
Definition emits {DB A : Type} (P : ui → Prop) (m : M DB A) : Prop :=
  ∀ w o w', m w = (o, w') → ∃ new, out w' = (out w ++ new)%list ∧ Forall P new.

(** Elements of the authentication page. *)
Definition unauthenticated (e : ui) : Prop := authenticated_element e = false.


(** ** Vocabulary for the properties of whole runs *)

(** [keeps f m]: a run of [m] leaves the component [f] of the world as
    it was, however the run ends. *)
Definition keeps {DB A X : Type} (f : world DB → X) (m : M DB A) : Prop :=
  ∀ w o w', m w = (o, w') → f w' = f w.

(** The session state: [st.session_state.user] and [.page]. *)
Definition session {DB : Type} (w : world DB) : option User * string :=
  (user w, page w).

(** [calls_only P m]: a run of [m] only appends to the log of database
    calls, and every call it appends satisfies [P]. *)
Definition calls_only {DB A : Type} (P : db_call → Prop) (m : M DB A) : Prop :=
  ∀ w o w', m w = (o, w') → ∃ new, calls w' = (calls w ++ new)%list ∧ Forall P new.

(** Calls of the authentication page. *)
Definition is_auth_call (c : db_call) : Prop :=
  match c with
  | CallAuthenticateUser _ _ | CallCreateUser _ _ _ _ => True
  | _ => False
  end.

(** Calls on behalf of the user with id [uid]: predictions are saved
    for and listed of [uid], and the user row read is that of [uid]. *)
Definition is_call_for (uid : nat) (c : db_call) : Prop :=
  match c with
  | CallSavePrediction uid' _ _ _ => uid' = uid
  | CallGetUserPredictions uid' => uid' = uid
  | CallGetUserById uid' => uid' = uid
  | CallUpdateUserProfile _ _ _ => True
  | CallAuthenticateUser _ _ | CallCreateUser _ _ _ _ => False
  end.

(** The pages the router knows for a logged-in user. *)
Definition routed_pages : list string := ["home"; "history"; "profile"].

(** A logged-in session is on a page the router knows. *)
Definition session_ok {DB : Type} (w : world DB) : Prop :=
  user w = None ∨ page w ∈ routed_pages.

(** The page of the first navigation button that is clicked, in the
    order in which the sidebar tests them. *)
Definition nav_click {upload : Type} (i : inputs upload) : option string :=
  if in_btn_home i then Some "home"
  else if in_btn_history i then Some "history"
  else if in_btn_profile i then Some "profile"
  else None.

(** Elements of one entry of the history (lines 165-174). *)
Definition entry_elements {upload tensor : Type} `{Utils upload tensor}
    (pred : PredictionRecord) : list ui :=
  [ Expander ("Prediction on " ++ format_date (p_created_at pred));
    ImageFile (p_image_path pred);
    MdClass (p_prediction_class pred);
    MdConfidence (p_confidence pred);
    MdDate (format_date (p_created_at pred)) ].

(** Elements of the profile form for the row [u]. *)
Definition profile_widgets (u : User) : list ui :=
  [ Title "User Profile"; MdUsername (u_username u); TextInput "Email";
    TextInput "Full Name"; FormSubmitButton "Update Profile" ].

(** Elements of the upload section of [home_page] before a file is
    chosen. *)
Definition upload_widgets : list ui :=
  [ Title "Diabetic Retinopathy Detection"; Header "Upload Retinal Image";
    FileUploader "Choose an image..." ].

(** Elements of the authentication page up to the forms. *)
Definition auth_header {upload : Type} (i : inputs upload) : list ui :=
  [ Title "Diabetic Retinopathy Detection";
    Subheader "Welcome to the DR Detection System" ]
  ++ (if file_exists i "assets/login_image.png"
      then [ImageFile "assets/login_image.png"] else []).


(** A backend that cannot be reached: every operation raises. *)
Definition offline_error : exn := Failure PersistenceError "database is offline".

Definition offline_database : Database unit :=
  Build_Database unit
    (fun _ _ _ => inl offline_error)
    (fun _ _ _ _ _ => inl offline_error)
    (fun _ _ _ _ _ => inl offline_error)
    (fun _ _ => inl offline_error)
    (fun _ _ => inl offline_error)
    (fun _ _ _ _ => inl offline_error).


(** The image stored with a record can be opened. *)
Definition image_loads {upload tensor : Type} `{Utils upload tensor}
    (pred : PredictionRecord) : Prop :=
  image_file_load (p_image_path pred) = inr tt.

(** Elements of a complete run of [history_page] over the listed
    records. *)
Definition history_elements {upload tensor : Type} `{Utils upload tensor}
    (predictions : list PredictionRecord) : list ui :=
  match predictions with
  | [] => [ Title "Prediction History"; Info "No prediction history available." ]
  | _ :: _ =>
      (Title "Prediction History" :: flat_map entry_elements predictions)
      ++ Subheader "Prediction Trend"
         :: (if plot_prediction_history predictions
             then [HistoryChart predictions] else [])
  end.

(** The world after a run that wrote [new] to the page and made the
    database calls [cs], with database [d]. *)
Definition after {DB : Type} (w : world DB) (d : DB) (new : list ui)
    (cs : list db_call) : world DB :=
  mkWorld d (user w) (page w) (out w ++ new) (calls w ++ cs).


(** Elements of the sidebar up to and including the first navigation
    button that is clicked. *)
Definition sidebar_prefix {upload : Type} (i : inputs upload) : list ui :=
  (if file_exists i "assets/logo.png" then [ImageFile "assets/logo.png"] else [])
  ++ [ Title "Navigation"; Button "Home" ]
  ++ (if in_btn_home i then []
      else Button "History"
           :: (if in_btn_history i then [] else [Button "Profile"])).

(** More inputs and users for the examples. *)
Module Scenario.

Definition edit_profile (email full : option string) : inputs string :=
  mkInputs string (fun _ => false) "" "" false "" "" "" "" "" false
    None false email full true false false false false.

Definition click_history : inputs string :=
  mkInputs string (fun _ => false) "" "" false "" "" "" "" "" false
    None false None None false false true false false.

Definition predict (file : string) : inputs string :=
  mkInputs string (fun _ => false) "" "" false "" "" "" "" "" false
    (Some file) true None None false false false false false.

(** Helpers for which the stored file "gone.png" can no longer be
    opened. *)
Definition missing_file : exn := Failure DecodeError "cannot open gone.png".

Definition utils : Utils string (list (list Q)) := {|
  image_open := fun _ => inr tt;
  image_file_load := fun path =>
    if String.eqb path "gone.png" then inl missing_file else inr tt;
  save_uploaded_file := fun name => inr ("uploads/" ++ name);
  preprocess_image := fun _ => inr [[1#10; 7#10; 1#10; 1#10]];
  model_predict := fun t => inr t;
  plot_prediction_history := fun l => negb (bool_decide (l = []));
  format_date := fun _ => "2024-01-01";
  get_class_color := fun _ => "#ff0000"
|}.

(** A session user whose row is not in the store. *)
Definition ghost : User := mkUser 9 "ghost" "ghost@example.org" "" None 0.

(** Two images in one batch; the largest score is in the second row. *)
Definition batch : list (list Q) := [[1#10; 2#10; 3#10; 4#10]; [0; 0; 9#10; 0]].

End Scenario.


(** Successive runs of the script in one session: each run starts in
    the world the previous one left (session state and database persist;
    an exception or a rerun request ends a run, not the session). *)
Fixpoint session_runs {DB : Type} `{Database DB}
    {upload tensor : Type} `{Utils upload tensor}
    (remedies_data : gmap string string)
    (runs : list (inputs upload)) (w : world DB) : world DB :=
  match runs with
  | [] => w
  | i :: rest => session_runs remedies_data rest (main remedies_data i w).2
  end.


(** [calls_under I P m]: started in a world that satisfies [I], a run of
    [m] ends in a world that satisfies [I], only appends to the log of
    database calls, and every call it appends satisfies [P]. *)
Definition calls_under {DB A : Type} (I : world DB → Prop) (P : db_call → Prop)
    (m : M DB A) : Prop :=
  ∀ w o w', I w → m w = (o, w') →
    I w' ∧ ∃ new, calls w' = (calls w ++ new)%list ∧ Forall P new.

(** The session user is [u]. *)
Definition logged_in_as {DB : Type} (u : User) (w : world DB) : Prop :=
  user w = Some u.


(** * Properties *)

Local Open Scope list_scope.

(** ** [np.argmax] returns the first position of the maximum *)

Lemma argmax_from_spec (l : list Q) :
  ∀ best_i best i,
    (Numpy.argmax_from best_i best i l = best_i
     ∧ ∀ j y, l !! j = Some y → (y <= best)%Q)
    ∨ (∃ k x, Numpy.argmax_from best_i best i l = (i + k)%nat
              ∧ l !! k = Some x
              ∧ (best < x)%Q
              ∧ (∀ j y, l !! j = Some y → (y <= x)%Q)
              ∧ (∀ j y, (j < k)%nat → l !! j = Some y → (y < x)%Q)).
Proof.
  induction l as [|a t IH]; intros best_i best i; simpl.
  - left. split; [reflexivity|]. intros j y Hj. rewrite lookup_nil in Hj. discriminate.
  - destruct (Qle_bool a best) eqn:Hle.
    + apply Qle_bool_iff in Hle.
      destruct (IH best_i best (S i)) as [[Hr Hall]|(k & x & Hr & Hk & Hlt & Hall & Hfirst)].
      * left. split; [exact Hr|].
        intros [|j] y Hj; simpl in Hj; [injection Hj as <-; exact Hle | eauto].
      * right. exists (S k), x. repeat split.
        -- rewrite Hr. lia.
        -- exact Hk.
        -- exact Hlt.
        -- intros [|j] y Hj; simpl in Hj; [injection Hj as <-; lra | eauto].
        -- intros [|j] y Hjk Hj; simpl in Hj; [injection Hj as <-; lra|].
           apply (Hfirst j); [lia | exact Hj].
    + assert (best < a)%Q as Hlt.
      { apply Qnot_le_lt. intros Hc. apply Qle_bool_iff in Hc. congruence. }
      right.
      destruct (IH i a (S i)) as [[Hr Hall]|(k & x & Hr & Hk & Hax & Hall & Hfirst)].
      * exists 0%nat, a. repeat split.
        -- rewrite Hr. lia.
        -- exact Hlt.
        -- intros [|j] y Hj; simpl in Hj; [injection Hj as <-; lra | eauto].
        -- intros j y Hj. lia.
      * exists (S k), x. repeat split.
        -- rewrite Hr. lia.
        -- exact Hk.
        -- lra.
        -- intros [|j] y Hj; simpl in Hj; [injection Hj as <-; lra | eauto].
        -- intros [|j] y Hjk Hj; simpl in Hj; [injection Hj as <-; exact Hax|].
           apply (Hfirst j); [lia | exact Hj].
Qed.

Lemma argmax_flat_spec (v : list Q) :
  v ≠ [] → ∃ idx, Numpy.argmax_flat v = inr idx ∧ Numpy.is_argmax v idx.
Proof.
  destruct v as [|a t]; [congruence|]. intros _. simpl.
  eexists. split; [reflexivity|].
  destruct (argmax_from_spec t 0%nat a 1%nat)
    as [[Hr Hall]|(k & x & Hr & Hk & Hax & Hall & Hfirst)]; rewrite Hr.
  - exists a. repeat split.
    + intros [|j] y Hj; simpl in Hj; [injection Hj as <-; lra | eauto].
    + intros j y Hj. lia.
  - exists x. repeat split.
    + exact Hk.
    + intros [|j] y Hj; simpl in Hj; [injection Hj as <-; lra | eauto].
    + intros [|j] y Hjk Hj; simpl in Hj; [injection Hj as <-; exact Hax|].
      apply (Hfirst j); [lia | exact Hj].
Qed.

(** A batch of one image: the flattened index is the column index. *)
Lemma argmax_single_row (v : list Q) : Numpy.argmax [v] = Numpy.argmax_flat v.
Proof. unfold Numpy.argmax. simpl. by rewrite app_nil_r. Qed.

Lemma is_argmax_lt (v : list Q) idx : Numpy.is_argmax v idx → (idx < length v)%nat.
Proof. intros (x & Hx & _). by apply lookup_lt_Some in Hx. Qed.

Lemma is_argmax_unique (v : list Q) a b :
  Numpy.is_argmax v a → Numpy.is_argmax v b → a = b.
Proof.
  intros (x & Hx & Hmx & Hfx) (y & Hy & Hmy & Hfy).
  destruct (lt_eq_lt_dec a b) as [[Hlt|Heq]|Hlt]; [|exact Heq|].
  - specialize (Hfy a x Hlt Hx). specialize (Hmx b y Hy). lra.
  - specialize (Hfx b y Hlt Hy). specialize (Hmy a x Hx). lra.
Qed.

Lemma class_names_lookup idx :
  (idx < 4)%nat → ∃ c, class_names !! idx = Some c.
Proof. intros Hlt. apply lookup_lt_is_Some_2. simpl. exact Hlt. Qed.

(** ** The prediction workflow *)

(** Evaluation of script code on a world given by its fields. *)
Ltac run_script :=
  unfold bind, lift, ret, raise, st, set_user, set_page, get_user, get_page,
    session_user_id, db_read, db_write, log_call, experimental_rerun,
    try_except; cbn.

(** The run of lines 118-151 once the arg-max index and its score are
    known. *)
Lemma home_page_predict_run
    {DB : Type} `{Database DB} {upload tensor : Type} `{Utils upload tensor}
    (remedies_data : gmap string string) (image_path : string)
    (v : list Q) (u : User) (w : world DB) (idx : nat) (p : Q) :
  Numpy.argmax [v] = inr idx →
  v !! idx = Some p →
  user w = Some u →
  workflow_result remedies_data image_path v u w idx p.
Proof.
  intros Hidx Hp Hu.
  unfold workflow_result, home_page_predict.
  rewrite Hidx.
  unfold list_getitem, Numpy.item.
  destruct w as [d us pg o cs]. simpl in Hu. subst us.
  run_script.
  destruct (class_names !! idx) as [c|] eqn:Hc; [|reflexivity].
  cbn. rewrite Hp. cbn.
  destruct (save_prediction d (u_id u) image_path c p) as [e|d'] eqn:Hs;
    [reflexivity|].
  cbn. unfold prediction_results. rewrite <- !app_assoc. reflexivity.
Qed.

(** Without a class at the arg-max index the run stops at the lookup. *)
Lemma home_page_predict_index_error
    {DB : Type} `{Database DB} {upload tensor : Type} `{Utils upload tensor}
    (remedies_data : gmap string string) (image_path : string)
    (a : list (list Q)) (w : world DB) (idx : nat) :
  Numpy.argmax a = inr idx →
  class_names !! idx = None →
  home_page_predict remedies_data image_path a w = (Raised IndexError, w).
Proof.
  intros Hidx Hc. unfold home_page_predict, list_getitem.
  rewrite Hidx. run_script. rewrite Hc. reflexivity.
Qed.

(** C1: for every non-empty classifier output vector [v] (a batch of one
    image) and a logged-in user, there is an index [idx] that is the
    arg-max of [v] with score [p] such that: if [class_names] has an entry
    [c] at [idx], the workflow passes exactly [c] and [p] to
    [save_prediction] and, when the write succeeds, reports [c] and [p];
    otherwise it stops with [IndexError] before choosing, storing or
    reporting anything.  A vector no longer than [class_names] always has
    such an entry. *)
Theorem predicted_class_is_argmax
    {DB : Type} `{Database DB} {upload tensor : Type} `{Utils upload tensor}
    (remedies_data : gmap string string) (image_path : string)
    (v : list Q) (u : User) (w : world DB) :
  v ≠ [] →
  user w = Some u →
  ∃ idx p,
    Numpy.is_argmax v idx
    ∧ v !! idx = Some p
    ∧ ((length v ≤ length class_names)%nat → is_Some (class_names !! idx))
    ∧ workflow_result remedies_data image_path v u w idx p.
Proof.
  intros Hne Hu.
  destruct (argmax_flat_spec v Hne) as (idx & Hidx & Harg).
  pose proof Harg as (p & Hp & _).
  exists idx, p. split; [exact Harg|]. split; [exact Hp|]. split.
  - intros Hlen. apply lookup_lt_is_Some_2.
    pose proof (is_argmax_lt v idx Harg). lia.
  - apply home_page_predict_run; [|exact Hp|exact Hu].
    by rewrite argmax_single_row.
Qed.

Lemma predicted_class_is_argmax_witness :
  Sample.scores ≠ []
  ∧ user (Sample.logged_in "home") = Some Sample.alice
  ∧ ∃ idx p,
      Numpy.is_argmax Sample.scores idx
      ∧ Sample.scores !! idx = Some p
      ∧ ((length Sample.scores ≤ length class_names)%nat
         → is_Some (class_names !! idx))
      ∧ workflow_result (H := SpecDb.database Sample.hash) (H0 := Sample.utils)
          Sample.remedies "uploads/eye.png" Sample.scores Sample.alice
          (Sample.logged_in "home") idx p.
Proof.
  split; [discriminate|]. split; [reflexivity|].
  apply (predicted_class_is_argmax (H := SpecDb.database Sample.hash)
           (H0 := Sample.utils) Sample.remedies "uploads/eye.png" Sample.scores
           Sample.alice (Sample.logged_in "home")); [discriminate | reflexivity].
Defined.

Lemma spike_length n : (0 < n)%nat → length (spike n) = n.
Proof.
  intros Hn. unfold spike. rewrite length_app, length_replicate. simpl. lia.
Qed.

Lemma spike_argmax n idx :
  (0 < n)%nat → Numpy.is_argmax (spike n) idx → idx = pred n.
Proof.
  intros Hn (x & Hx & Hmax & _).
  assert (spike n !! pred n = Some 1%Q) as Hlast.
  { unfold spike. rewrite lookup_app_r; rewrite length_replicate; [|lia].
    by rewrite Nat.sub_diag. }
  specialize (Hmax _ _ Hlast).
  pose proof (lookup_lt_Some _ _ _ Hx) as Hlt. rewrite spike_length in Hlt; [|exact Hn].
  destruct (decide (idx = pred n)) as [|Hne]; [done|].
  unfold spike in Hx. rewrite lookup_app_l in Hx; [|rewrite length_replicate; lia].
  apply lookup_replicate_1 in Hx as [-> _]. lra.
Qed.

(** C9: the class lookup of the workflow is in bounds for every
    non-empty output vector no longer than [class_names]; whenever the
    arg-max index reaches the length of [class_names] (4) the lookup is
    out of bounds and the workflow stops with [IndexError]; and every
    length above 4 admits an output vector for which this happens. *)
Theorem class_lookup_bounds
    {DB : Type} `{Database DB} {upload tensor : Type} `{Utils upload tensor}
    (remedies_data : gmap string string) (image_path : string) (w : world DB) :
  (∀ v : list Q,
      v ≠ [] → (length v ≤ length class_names)%nat →
      ∃ idx c, Numpy.argmax [v] = inr idx ∧ list_getitem class_names idx = inr c)
  ∧ (∀ (v : list Q) idx,
        Numpy.argmax [v] = inr idx → (4 ≤ idx)%nat →
        list_getitem class_names idx = inl IndexError
        ∧ home_page_predict remedies_data image_path [v] w
          = (Raised IndexError, w))
  ∧ (∀ n, (length class_names < n)%nat →
          ∃ (v : list Q) idx,
            length v = n ∧ Numpy.argmax [v] = inr idx ∧ (4 ≤ idx)%nat).
Proof.
  split; [|split].
  - intros v Hne Hlen.
    destruct (argmax_flat_spec v Hne) as (idx & Hidx & Harg).
    pose proof (is_argmax_lt v idx Harg) as Hlt.
    destruct (class_names_lookup idx) as [c Hc]; [simpl in Hlen; lia|].
    exists idx, c. rewrite argmax_single_row. split; [exact Hidx|].
    unfold list_getitem. by rewrite Hc.
  - intros v idx Hidx Hge.
    assert (class_names !! idx = None) as Hc by (apply lookup_ge_None_2; simpl; lia).
    split.
    + unfold list_getitem. by rewrite Hc.
    + by apply home_page_predict_index_error with idx.
  - intros n Hn. simpl in Hn.
    assert (spike n ≠ []) as Hne.
    { intros Heq. apply (f_equal length) in Heq. rewrite spike_length in Heq; simpl in Heq; lia. }
    destruct (argmax_flat_spec (spike n) Hne) as (idx & Hidx & Harg).
    exists (spike n), idx. split; [apply spike_length; lia|].
    rewrite argmax_single_row. split; [exact Hidx|].
    apply spike_argmax in Harg; lia.
Qed.

Lemma class_lookup_bounds_witness :
  (∃ idx c, Numpy.argmax [Sample.scores] = inr idx
            ∧ list_getitem class_names idx = inr c)
  ∧ (list_getitem class_names 4 = inl IndexError
     ∧ home_page_predict (H := SpecDb.database Sample.hash) (H0 := Sample.utils)
         Sample.remedies "uploads/eye.png" [Sample.five_scores]
         (Sample.logged_in "home")
       = (Raised IndexError, Sample.logged_in "home"))
  ∧ (∃ (v : list Q) idx,
        length v = 5%nat ∧ Numpy.argmax [v] = inr idx ∧ (4 ≤ idx)%nat).
Proof.
  destruct (class_lookup_bounds (H := SpecDb.database Sample.hash)
              (H0 := Sample.utils) Sample.remedies "uploads/eye.png"
              (Sample.logged_in "home")) as (Hin & Hout & Hlong).
  split; [|split].
  - apply Hin; [discriminate | simpl; lia].
  - apply Hout; [reflexivity | lia].
  - apply Hlong. simpl. lia.
Defined.

(** Every [save_prediction] call of the workflow carries a class of
    [class_names] and a score of the output vector. *)
Lemma home_page_predict_calls
    {DB : Type} `{Database DB} {upload tensor : Type} `{Utils upload tensor}
    (remedies_data : gmap string string) (image_path : string)
    (v : list Q) (w : world DB) o w' :
  home_page_predict remedies_data image_path [v] w = (o, w') →
  calls w' = calls w
  ∨ ∃ u idx c p,
      user w = Some u ∧ Numpy.is_argmax v idx
      ∧ class_names !! idx = Some c ∧ v !! idx = Some p
      ∧ calls w' = calls w ++ [CallSavePrediction (u_id u) image_path c p].
Proof.
  destruct (decide (v = [])) as [->|Hne].
  { unfold home_page_predict. cbn. intros [= <- <-]. by left. }
  destruct (argmax_flat_spec v Hne) as (idx & Hidx & Harg).
  pose proof Harg as (p & Hp & _).
  rewrite <- argmax_single_row in Hidx.
  destruct (class_names !! idx) as [c|] eqn:Hc.
  - destruct (user w) as [u|] eqn:Hu.
    + pose proof (home_page_predict_run remedies_data image_path v u w idx p
                    Hidx Hp Hu) as Hrun.
      unfold workflow_result in Hrun. rewrite Hc in Hrun.
      intros Heq. right. exists u, idx, c, p.
      repeat (split; [done|]).
      destruct (save_prediction (db w) (u_id u) image_path c p);
        rewrite Hrun in Heq; by injection Heq as <- <-.
    + unfold home_page_predict, list_getitem, Numpy.item.
      rewrite Hidx. destruct w as [d us pg o0 cs]. simpl in Hu. subst us.
      run_script. rewrite Hc. cbn. rewrite Hp. cbn.
      intros [= <- <-]. by left.
  - rewrite (home_page_predict_index_error remedies_data image_path [v] w idx Hidx Hc).
    intros [= <- <-]. by left.
Qed.

(** C4: for every classifier output vector [v], that is, every vector
    of scores in [0,1], each record the workflow creates satisfies the
    invariant of the data model: every [save_prediction] call of a run on
    [v] carries a class that belongs to [class_names] and a confidence in
    [0,1]; the two are the class and the score at the arg-max index of
    [v].  For a logged-in user and a non-empty [v] no longer than
    [class_names] exactly one such call is made. *)
Theorem created_record_invariant
    {DB : Type} `{Database DB} {upload tensor : Type} `{Utils upload tensor}
    (remedies_data : gmap string string) (image_path : string)
    (v : list Q) (w : world DB) o w' :
  Forall in_unit_interval v →
  home_page_predict remedies_data image_path [v] w = (o, w') →
  ∃ new,
    calls w' = calls w ++ new
    ∧ (∀ uid path cls confidence,
          CallSavePrediction uid path cls confidence ∈ new →
          record_invariant cls confidence
          ∧ ∃ idx, Numpy.is_argmax v idx
                   ∧ class_names !! idx = Some cls
                   ∧ v !! idx = Some confidence)
    ∧ (∀ u, user w = Some u → v ≠ [] → (length v ≤ length class_names)%nat →
            ∃ cls confidence,
              new = [CallSavePrediction (u_id u) image_path cls confidence]).
Proof.
  intros Hall Hrun.
  destruct (home_page_predict_calls _ _ _ _ _ _ Hrun)
    as [Hsame|(u & idx & c & p & Hu & Harg & Hc & Hp & Hcalls)].
  - exists []. rewrite app_nil_r. split; [exact Hsame|]. split.
    + intros uid path cls confidence Hin. by apply elem_of_nil in Hin.
    + intros u Hu Hne Hlen. exfalso.
      destruct (argmax_flat_spec v Hne) as (idx & Hidx & Harg).
      pose proof Harg as (p & Hp & _).
      pose proof (is_argmax_lt v idx Harg) as Hlt.
      destruct (class_names_lookup idx) as [c Hc]; [simpl in Hlen; lia|].
      rewrite <- argmax_single_row in Hidx.
      pose proof (home_page_predict_run remedies_data image_path v u w idx p
                    Hidx Hp Hu) as Hres.
      unfold workflow_result in Hres. rewrite Hc in Hres.
      destruct (save_prediction (db w) (u_id u) image_path c p);
        rewrite Hres in Hrun; injection Hrun as <- <-; simpl in Hsame;
        apply (f_equal length) in Hsame; rewrite length_app in Hsame;
        simpl in Hsame; lia.
  - exists [CallSavePrediction (u_id u) image_path c p].
    split; [exact Hcalls|]. split.
    + intros uid path cls confidence Hin.
      apply list_elem_of_singleton in Hin. injection Hin as -> -> -> ->.
      split; [|by exists idx].
      split; [by eapply list_elem_of_lookup_2|].
      rewrite Forall_forall in Hall. apply Hall.
      by eapply list_elem_of_lookup_2.
    + intros u' Hu' _ _. rewrite Hu in Hu'. injection Hu' as <-. eauto.
Qed.

Lemma created_record_invariant_witness :
  Forall in_unit_interval Sample.scores
  ∧ ∃ new,
      calls (Sample.predict_run Sample.scores).2
      = calls (Sample.logged_in "home") ++ new
      ∧ (∀ uid path cls confidence,
            CallSavePrediction uid path cls confidence ∈ new →
            record_invariant cls confidence
            ∧ ∃ idx, Numpy.is_argmax Sample.scores idx
                     ∧ class_names !! idx = Some cls
                     ∧ Sample.scores !! idx = Some confidence)
      ∧ (∀ u, user (Sample.logged_in "home") = Some u → Sample.scores ≠ [] →
              (length Sample.scores ≤ length class_names)%nat →
              ∃ cls confidence,
                new = [CallSavePrediction (u_id u) "uploads/eye.png" cls confidence]).
Proof.
  assert (Forall in_unit_interval Sample.scores) as Hscores.
  { repeat constructor; unfold Qle; simpl; lia. }
  split; [exact Hscores|].
  apply (created_record_invariant (H := SpecDb.database Sample.hash)
           (H0 := Sample.utils) Sample.remedies "uploads/eye.png"
           Sample.scores (Sample.logged_in "home")
           (Sample.predict_run Sample.scores).1
           (Sample.predict_run Sample.scores).2 Hscores).
  apply surjective_pairing.
Defined.

(** ** Remedy lookup *)

(** C3: [remedies_data.get(label, 'No remedy available')] returns the
    text configured for [label] when the table has one and the sentinel
    otherwise (it is a total function of the table and the label). *)
Theorem remedy_lookup_spec (remedies_data : gmap string string) (label : string) :
  (∀ text, remedies_data !! label = Some text →
           remedy_lookup remedies_data label = text)
  ∧ (label ∉ dom remedies_data →
     remedy_lookup remedies_data label = "No remedy available").
Proof.
  unfold remedy_lookup. split.
  - intros text Hl. by rewrite Hl.
  - intros Hdom. apply not_elem_of_dom in Hdom. by rewrite Hdom.
Qed.

Lemma remedy_lookup_spec_witness :
  remedy_lookup Sample.remedies "Severe" = "See a specialist"
  ∧ remedy_lookup Sample.remedies "Unknown" = "No remedy available".
Proof.
  split.
  - apply (remedy_lookup_spec Sample.remedies "Severe"). reflexivity.
  - apply (remedy_lookup_spec Sample.remedies "Unknown").
    apply not_elem_of_dom. reflexivity.
Defined.

(** ** Sign-up *)

(** C5: a submitted sign-up form whose password and confirmation differ
    renders the form and the error "Passwords do not match!"; the run
    makes no database call (so [create_user] is not invoked) and leaves
    the database and the session state as they were. *)
Theorem signup_password_mismatch
    {DB : Type} `{Database DB} {upload : Type}
    (i : inputs upload) (w : world DB) :
  in_signup_submit i = true →
  in_signup_password i ≠ in_signup_confirm i →
  signup_form i w
  = (Done tt,
     mkWorld (db w) (user w) (page w)
       (out w ++ signup_widgets ++ [Error "Passwords do not match!"])
       (calls w)).
Proof.
  intros Hsubmit Hneq. apply String.eqb_neq in Hneq.
  unfold signup_form. rewrite Hsubmit, Hneq.
  destruct w as [d us pg o cs]. run_script.
  unfold signup_widgets. rewrite <- !app_assoc. reflexivity.
Qed.

Lemma signup_password_mismatch_witness :
  signup_form (H := SpecDb.database Sample.hash)
    (Sample.sign_up "bob" "bob@example.org" "pw1" "pw2" "Bob") Sample.logged_out
  = (Done tt,
     mkWorld Sample.store None "login"
       (signup_widgets ++ [Error "Passwords do not match!"]) []).
Proof.
  apply (signup_password_mismatch (H := SpecDb.database Sample.hash)
           (Sample.sign_up "bob" "bob@example.org" "pw1" "pw2" "Bob")
           Sample.logged_out); [reflexivity | discriminate].
Defined.

(** ** Routing *)

#[local] Arguments routing : simpl never.
#[local] Arguments sidebar : simpl never.
#[local] Arguments auth_page : simpl never.

(** With no session user, [main] is the page configuration followed by
    [auth_page]: the sidebar is skipped and the router takes its first
    branch. *)
Lemma main_logged_out
    {DB : Type} `{Database DB} {upload tensor : Type} `{Utils upload tensor}
    (remedies_data : gmap string string) (i : inputs upload) (w : world DB) :
  user w = None →
  routing remedies_data i w = auth_page i w
  ∧ main remedies_data i w = (st page_config ;; auth_page i) w.
Proof.
  intros Hu. destruct w as [d us pg o cs]. simpl in Hu. subst us.
  split; reflexivity.
Qed.

(** The sidebar when no navigation button is clicked. *)
Lemma sidebar_idle {DB : Type} {upload : Type} (i : inputs upload) (w : world DB) :
  in_btn_home i = false → in_btn_history i = false →
  in_btn_profile i = false → in_btn_logout i = false →
  sidebar i w
  = (Done tt,
     mkWorld (db w) (user w) (page w) (out w ++ sidebar_elements i) (calls w)).
Proof.
  intros Hh Hhi Hp Hl. unfold sidebar, sidebar_elements.
  rewrite Hh, Hhi, Hp, Hl. destruct w as [d us pg o cs].
  destruct (file_exists i "assets/logo.png"); run_script;
    rewrite <- ?app_assoc; reflexivity.
Qed.

(** The sidebar when only "Logout" is clicked. *)
Lemma sidebar_logout {DB : Type} {upload : Type} (i : inputs upload) (w : world DB) :
  in_btn_home i = false → in_btn_history i = false →
  in_btn_profile i = false → in_btn_logout i = true →
  sidebar i w
  = (Rerun,
     mkWorld (db w) None "login" (out w ++ sidebar_elements i) (calls w)).
Proof.
  intros Hh Hhi Hp Hl. unfold sidebar, sidebar_elements.
  rewrite Hh, Hhi, Hp, Hl. destruct w as [d us pg o cs].
  destruct (file_exists i "assets/logo.png"); run_script;
    rewrite <- ?app_assoc; reflexivity.
Qed.

(** C10: for a logged-in user whose session page is none of 'home',
    'history' and 'profile', the router completes without rendering
    anything and without touching the world; a run of [main] with no
    navigation button clicked then consists of the page configuration and
    the sidebar only. *)
Theorem unknown_page_renders_nothing
    {DB : Type} `{Database DB} {upload tensor : Type} `{Utils upload tensor}
    (remedies_data : gmap string string) (i : inputs upload)
    (w : world DB) (u : User) :
  user w = Some u →
  page w ≠ "home" → page w ≠ "history" → page w ≠ "profile" →
  routing remedies_data i w = (Done tt, w)
  ∧ (in_btn_home i = false → in_btn_history i = false →
     in_btn_profile i = false → in_btn_logout i = false →
     main remedies_data i w
     = (Done tt,
        mkWorld (db w) (user w) (page w)
          (out w ++ page_config :: sidebar_elements i) (calls w))).
Proof.
  intros Hu Hhome Hhist Hprof.
  apply String.eqb_neq in Hhome, Hhist, Hprof.
  assert (∀ w0 : world DB, user w0 = Some u → page w0 = page w →
            routing remedies_data i w0 = (Done tt, w0)) as Hroute.
  { intros [d us pg o cs] Hu0 Hpg. simpl in Hu0, Hpg. subst us pg.
    unfold routing. run_script. by rewrite Hhome, Hhist, Hprof. }
  split; [by apply Hroute|].
  intros Hh Hhi Hp Hl. unfold main.
  destruct w as [d us pg o cs]. simpl in Hu. subst us.
  run_script. rewrite sidebar_idle by assumption.
  cbn. rewrite Hroute by reflexivity.
  rewrite <- app_assoc. reflexivity.
Qed.

Lemma unknown_page_renders_nothing_witness :
  routing (H := SpecDb.database Sample.hash) (H0 := Sample.utils)
    Sample.remedies Sample.idle (Sample.logged_in "login")
  = (Done tt, Sample.logged_in "login")
  ∧ main (H := SpecDb.database Sample.hash) (H0 := Sample.utils)
      Sample.remedies Sample.idle (Sample.logged_in "login")
    = (Done tt,
       mkWorld Sample.store (Some Sample.alice) "login"
         (page_config :: sidebar_elements Sample.idle) []).
Proof.
  destruct (unknown_page_renders_nothing (H := SpecDb.database Sample.hash)
              (H0 := Sample.utils) Sample.remedies Sample.idle
              (Sample.logged_in "login") Sample.alice)
    as [Hroute Hmain]; [reflexivity | discriminate..|].
  split; [exact Hroute|]. by apply Hmain.
Defined.

(** *** What a run writes to the page *)

Section Emits.

Context {DB : Type} (P : ui → Prop).

Lemma emits_silent {A} (m : M DB A) :
  (∀ w o w', m w = (o, w') → out w' = out w) → emits P m.
Proof.
  intros Hm w o w' Hrun. exists []. rewrite app_nil_r. eauto.
Qed.

Lemma emits_ret {A} (a : A) : emits P (ret (DB := DB) a).
Proof. apply emits_silent. by intros w o w' [= <- <-]. Qed.

Lemma emits_raise {A} (e : exn) : emits P (raise (DB := DB) (A := A) e).
Proof. apply emits_silent. by intros w o w' [= <- <-]. Qed.

Lemma emits_rerun {A} : emits P (experimental_rerun (DB := DB) (A := A)).
Proof. apply emits_silent. by intros w o w' [= <- <-]. Qed.

Lemma emits_lift {A} (r : exn + A) : emits P (lift (DB := DB) r).
Proof. destruct r; [apply emits_raise | apply emits_ret]. Qed.

Lemma emits_st (e : ui) : P e → emits P (st (DB := DB) e).
Proof.
  intros He w o w' [= <- <-]. exists [e]. split; [reflexivity|]. by constructor.
Qed.

Lemma emits_set_user (u : option User) : emits P (set_user (DB := DB) u).
Proof. apply emits_silent. by intros w o w' [= <- <-]. Qed.

Lemma emits_set_page (p : string) : emits P (set_page (DB := DB) p).
Proof. apply emits_silent. by intros w o w' [= <- <-]. Qed.

Lemma emits_get_user : emits P (get_user (DB := DB)).
Proof. apply emits_silent. by intros w o w' [= <- <-]. Qed.

Lemma emits_get_page : emits P (get_page (DB := DB)).
Proof. apply emits_silent. by intros w o w' [= <- <-]. Qed.

Lemma emits_bind {A B} (m : M DB A) (k : A → M DB B) :
  emits P m → (∀ a, emits P (k a)) → emits P (bind m k).
Proof.
  intros Hm Hk w o w' Hrun. unfold bind in Hrun.
  destruct (m w) as [[a| |e] w1] eqn:Hmw.
  - destruct (Hm _ _ _ Hmw) as (n1 & Ho1 & Hp1).
    destruct (Hk a _ _ _ Hrun) as (n2 & Ho2 & Hp2).
    exists (n1 ++ n2). split; [by rewrite Ho2, Ho1, app_assoc|].
    by apply Forall_app.
  - injection Hrun as <- <-. by apply (Hm _ _ _ Hmw).
  - injection Hrun as <- <-. by apply (Hm _ _ _ Hmw).
Qed.

Lemma emits_try_except {A} (body : M DB A) (handler : exn → M DB A) :
  emits P body → (∀ e, emits P (handler e)) → emits P (try_except body handler).
Proof.
  intros Hb Hh w o w' Hrun. unfold try_except in Hrun.
  destruct (body w) as [[a| |e] w1] eqn:Hbw.
  - injection Hrun as <- <-. by apply (Hb _ _ _ Hbw).
  - injection Hrun as <- <-. by apply (Hb _ _ _ Hbw).
  - destruct (Hb _ _ _ Hbw) as (n1 & Ho1 & Hp1).
    destruct (Hh e _ _ _ Hrun) as (n2 & Ho2 & Hp2).
    exists (n1 ++ n2). split; [by rewrite Ho2, Ho1, app_assoc|].
    by apply Forall_app.
Qed.

Lemma emits_session_user_id : emits P (session_user_id (DB := DB)).
Proof.
  apply emits_bind; [apply emits_get_user|].
  intros [u|]; [apply emits_ret | apply emits_raise].
Qed.

Lemma emits_db_read {A} (c : db_call) (f : DB → exn + A) : emits P (db_read c f).
Proof.
  apply emits_silent. intros [d us pg o0 cs] o w'. unfold db_read. run_script.
  destruct (f d); by intros [= <- <-].
Qed.

Lemma emits_db_write (c : db_call) (f : DB → exn + DB) : emits P (db_write c f).
Proof.
  apply emits_silent. intros [d us pg o0 cs] o w'. unfold db_write. run_script.
  destruct (f d); by intros [= <- <-].
Qed.

Lemma emits_for_each {A} (l : list A) (body : A → M DB unit) :
  (∀ x, emits P (body x)) → emits P (for_each l body).
Proof.
  intros Hb. induction l as [|x t IH]; simpl.
  - apply emits_ret.
  - apply emits_bind; [apply Hb | intros _; exact IH].
Qed.

End Emits.

(** Decomposition of script code along its structure. *)
Ltac emits_step :=
  lazymatch goal with
  | |- emits _ (bind _ _) => apply emits_bind; [|intros ?]
  | |- emits _ (try_except _ _) => apply emits_try_except; [|intros ?]
  | |- emits _ (st _) => apply emits_st; try reflexivity; try exact I
  | |- emits _ (ret _) => apply emits_ret
  | |- emits _ (raise _) => apply emits_raise
  | |- emits _ experimental_rerun => apply emits_rerun
  | |- emits _ (lift _) => apply emits_lift
  | |- emits _ (set_user _) => apply emits_set_user
  | |- emits _ (set_page _) => apply emits_set_page
  | |- emits _ get_user => apply emits_get_user
  | |- emits _ get_page => apply emits_get_page
  | |- emits _ session_user_id => apply emits_session_user_id
  | |- emits _ (db_read _ _) => apply emits_db_read
  | |- emits _ (db_write _ _) => apply emits_db_write
  | |- emits _ (for_each _ _) => apply emits_for_each; intros ?
  | |- emits _ (if ?b then _ else _) => destruct b
  | |- emits _ (match ?x with _ => _ end) => destruct x
  end.

(** The authentication page writes no element of the pages behind the
    login, whatever the widgets and the database answer. *)
Lemma auth_page_emits {DB : Type} `{Database DB} {upload : Type}
    (i : inputs upload) : emits unauthenticated (auth_page (DB := DB) i).
Proof.
  unfold auth_page, login_form, signup_form. repeat emits_step.
Qed.

Lemma st_then_out {DB A : Type} (e : ui) (k : M DB A) (w : world DB) o w' :
  emits (fun _ => True) k →
  (st e ;; k) w = (o, w') →
  ∃ new, out w' = out w ++ e :: new.
Proof.
  intros Hk Hrun. unfold bind, st in Hrun.
  destruct (Hk _ _ _ Hrun) as (new & Hout & _).
  exists new. rewrite Hout. simpl. by rewrite <- app_assoc.
Qed.

(** Each page behind the login writes an element that is particular to
    it: the upload header, or its own title. *)
Lemma authenticated_pages_marked
    {DB : Type} `{Database DB} {upload tensor : Type} `{Utils upload tensor}
    (remedies_data : gmap string string) (i : inputs upload)
    (w : world DB) o w' :
  home_page remedies_data i w = (o, w')
  ∨ history_page w = (o, w')
  ∨ profile_page i w = (o, w') →
  ∃ new, out w' = out w ++ new
         ∧ Exists (fun e => authenticated_element e = true) new.
Proof.
  intros [Hrun|[Hrun|Hrun]].
  - unfold home_page in Hrun. unfold bind at 1, st at 1 in Hrun.
    apply st_then_out in Hrun as [new Hout].
    + exists (Title "Diabetic Retinopathy Detection"
              :: Header "Upload Retinal Image" :: new).
      split; [simpl in Hout; by rewrite Hout, <- app_assoc|].
      apply Exists_cons_tl, Exists_cons_hd. reflexivity.
    + unfold home_page_predict. repeat emits_step.
  - unfold history_page in Hrun.
    apply st_then_out in Hrun as [new Hout].
    + exists (Title "Prediction History" :: new).
      split; [exact Hout | by apply Exists_cons_hd].
    + unfold history_entry. repeat emits_step.
  - unfold profile_page in Hrun.
    apply st_then_out in Hrun as [new Hout].
    + exists (Title "User Profile" :: new).
      split; [exact Hout | by apply Exists_cons_hd].
    + repeat emits_step.
Qed.

(** C8: with no session user, the router is [auth_page] and a run of
    [main] is the page configuration followed by [auth_page]; whatever
    the widgets and the database answer, such a run appends only elements
    of the authentication page (none of the sidebar, [home_page],
    [history_page] or [profile_page]).  A click on "Logout" ends the run
    with a rerun request in a world whose user is [None] and whose page
    is 'login', so every later run is again the authentication page. *)
Theorem logged_out_renders_auth_only
    {DB : Type} `{Database DB} {upload tensor : Type} `{Utils upload tensor}
    (remedies_data : gmap string string) (i : inputs upload) (w : world DB) :
  (user w = None →
     routing remedies_data i w = auth_page i w
     ∧ main remedies_data i w = (st page_config ;; auth_page i) w
     ∧ ∀ o w', main remedies_data i w = (o, w') →
         ∃ new, out w' = out w ++ page_config :: new
                ∧ Forall unauthenticated new)
  ∧ (in_btn_home i = false → in_btn_history i = false →
     in_btn_profile i = false → in_btn_logout i = true →
     is_Some (user w) →
     ∃ w', main remedies_data i w = (Rerun, w')
           ∧ user w' = None
           ∧ page w' = "login"
           ∧ db w' = db w
           ∧ out w' = out w ++ page_config :: sidebar_elements i
           ∧ ∀ i' : inputs upload,
               main remedies_data i' w' = (st page_config ;; auth_page i') w').
Proof.
  split.
  - intros Hu. destruct (main_logged_out remedies_data i w Hu) as [Hr Hm].
    split; [exact Hr|]. split; [exact Hm|].
    intros o w' Hrun. rewrite Hm in Hrun. unfold bind, st in Hrun.
    destruct (auth_page_emits i _ _ _ Hrun) as (new & Hout & Hall).
    exists new. split; [|exact Hall].
    rewrite Hout. simpl. by rewrite <- app_assoc.
  - intros Hh Hhi Hp Hl [u Hu].
    destruct w as [d us pg o cs]. simpl in Hu. subst us.
    eexists. split.
    { unfold main. run_script. rewrite sidebar_logout by assumption.
      cbn. reflexivity. }
    cbn. repeat (split; [reflexivity|]). split.
    + by rewrite <- app_assoc.
    + intros i'. by apply main_logged_out.
Qed.

Lemma logged_out_renders_auth_only_witness :
  (routing (H := SpecDb.database Sample.hash) (H0 := Sample.utils)
     Sample.remedies (Sample.log_in "alice" "wrong") Sample.logged_out
   = auth_page (H := SpecDb.database Sample.hash)
       (Sample.log_in "alice" "wrong") Sample.logged_out)
  ∧ ∃ w', main (H := SpecDb.database Sample.hash) (H0 := Sample.utils)
            Sample.remedies Sample.click_logout (Sample.logged_in "history")
          = (Rerun, w')
          ∧ user w' = None ∧ page w' = "login".
Proof.
  destruct (logged_out_renders_auth_only (H := SpecDb.database Sample.hash)
              (H0 := Sample.utils) Sample.remedies
              (Sample.log_in "alice" "wrong") Sample.logged_out)
    as [Hout _].
  destruct (logged_out_renders_auth_only (H := SpecDb.database Sample.hash)
              (H0 := Sample.utils) Sample.remedies
              Sample.click_logout (Sample.logged_in "history"))
    as [_ Hlogout].
  split.
  - by apply Hout.
  - destruct Hlogout as (w' & Hrun & Hu & Hp & _);
      [reflexivity..| by eexists |].
    exists w'. by repeat split.
Defined.

(** ** The storage backend *)

Lemma insert_by_time_perm p l : SpecDb.insert_by_time p l ≡ₚ p :: l.
Proof.
  induction l as [|q t IH]; simpl; [done|].
  destruct (p_created_at p <=? p_created_at q)%nat; [done|].
  rewrite IH. apply Permutation_swap.
Qed.

Lemma sort_by_time_perm l : SpecDb.sort_by_time l ≡ₚ l.
Proof.
  induction l as [|p t IH]; simpl; [done|].
  by rewrite insert_by_time_perm, IH.
Qed.

Lemma insert_by_time_sorted p l :
  StronglySorted SpecDb.older_or_same l →
  StronglySorted SpecDb.older_or_same (SpecDb.insert_by_time p l).
Proof.
  induction 1 as [|q t Hsorted IH Hq]; simpl.
  - repeat constructor.
  - destruct (p_created_at p <=? p_created_at q)%nat eqn:Hle.
    + apply Nat.leb_le in Hle. constructor; [by constructor|].
      constructor; [exact Hle|].
      eapply Forall_impl; [exact Hq|].
      unfold SpecDb.older_or_same. intros r Hr. lia.
    + apply Nat.leb_gt in Hle. constructor; [exact IH|].
      rewrite insert_by_time_perm. constructor; [|exact Hq].
      unfold SpecDb.older_or_same. lia.
Qed.

Lemma sort_by_time_sorted l :
  StronglySorted SpecDb.older_or_same (SpecDb.sort_by_time l).
Proof.
  induction l as [|p t IH]; simpl; [constructor|].
  by apply insert_by_time_sorted.
Qed.

Lemma wf_empty : SpecDb.wf SpecDb.empty.
Proof.
  split; [|constructor]. intros r Hr. by apply elem_of_nil in Hr.
Qed.

Lemma wf_save_prediction d uid path cls conf d' :
  SpecDb.wf d → SpecDb.save_prediction d uid path cls conf = inr d' → SpecDb.wf d'.
Proof.
  intros [Hids Hnames]. unfold SpecDb.save_prediction.
  destruct (negb (SpecDb.storage_ok d)); [discriminate|].
  intros [= <-]. split; [|exact Hnames]. simpl.
  intros r [Hr| ->%list_elem_of_singleton]%elem_of_app.
  - specialize (Hids r Hr). lia.
  - simpl. lia.
Qed.

Lemma existsb_has_username name l :
  existsb (SpecDb.has_username name) l = false → name ∉ map u_username l.
Proof.
  induction l as [|u t IH]; simpl; [intros _; apply not_elem_of_nil|].
  intros [Hu Ht]%orb_false_iff. apply String.eqb_neq in Hu.
  apply not_elem_of_cons. split; [congruence | by apply IH].
Qed.

Lemma wf_create_user hash d name email pw full d' :
  SpecDb.wf d → SpecDb.create_user hash d name email pw full = inr d' → SpecDb.wf d'.
Proof.
  intros [Hids Hnames]. unfold SpecDb.create_user.
  destruct (negb (SpecDb.storage_ok d)); [discriminate|].
  destruct (existsb (SpecDb.has_username name) (SpecDb.users d)) eqn:Hex;
    [discriminate|].
  intros [= <-]. split; [exact Hids|]. simpl.
  rewrite map_app. simpl. apply NoDup_app. split; [exact Hnames|]. split.
  - intros x Hx ->%list_elem_of_singleton.
    by apply (existsb_has_username _ _ Hex).
  - apply NoDup_singleton.
Qed.

Lemma wf_update_user_profile d uid full email d' :
  SpecDb.wf d → SpecDb.update_user_profile d uid full email = inr d' → SpecDb.wf d'.
Proof.
  intros [Hids Hnames]. unfold SpecDb.update_user_profile.
  destruct (negb (SpecDb.storage_ok d)); [discriminate|].
  intros [= <-]. split; [exact Hids|]. simpl.
  rewrite map_map. rewrite (map_ext _ u_username); [exact Hnames|].
  intros u. unfold SpecDb.set_profile. by destruct (SpecDb.has_id uid u).
Qed.

Lemma find_by_username (l : list User) (u : User) :
  NoDup (map u_username l) → u ∈ l →
  List.find (SpecDb.has_username (u_username u)) l = Some u.
Proof.
  induction l as [|a t IH]; simpl; [intros _ Hin; by apply elem_of_nil in Hin|].
  intros [Hnotin Hnodup]%NoDup_cons [->|Hin]%elem_of_cons.
  - unfold SpecDb.has_username. by rewrite String.eqb_refl.
  - destruct (SpecDb.has_username (u_username u) a) eqn:Ha.
    + apply String.eqb_eq in Ha. exfalso. apply Hnotin. rewrite Ha.
      apply list_elem_of_fmap. eauto.
    + by apply IH.
Qed.

Lemma filter_owned_by_new d uid path cls conf :
  filter (fun p => SpecDb.owned_by uid p = true)
    (SpecDb.predictions d ++ [SpecDb.new_record d uid path cls conf])
  = filter (fun p => SpecDb.owned_by uid p = true) (SpecDb.predictions d)
    ++ [SpecDb.new_record d uid path cls conf].
Proof.
  rewrite filter_app. f_equal.
  rewrite filter_cons_True; [done|].
  unfold SpecDb.owned_by. simpl. apply Nat.eqb_refl.
Qed.

Lemma filter_owned_by_other d uid uid' path cls conf :
  uid' ≠ uid →
  filter (fun p => SpecDb.owned_by uid' p = true)
    (SpecDb.predictions d ++ [SpecDb.new_record d uid path cls conf])
  = filter (fun p => SpecDb.owned_by uid' p = true) (SpecDb.predictions d).
Proof.
  intros Hne. rewrite filter_app, filter_cons_False, filter_nil, app_nil_r; [done|].
  unfold SpecDb.owned_by. simpl. intros Heq%Nat.eqb_eq. congruence.
Qed.

(** C2: in a well-formed backend state, a successful
    [save_prediction(uid, path, cls, conf)] followed by
    [get_user_predictions(uid)] returns a list that holds the new record
    with exactly the written user id, image path, class and confidence;
    the list is the user's earlier list plus that record (so it is the
    one-element list for a user without earlier records), no other entry
    shares the record's id, the list is ordered by creation time, and the
    lists of other users are unchanged. *)
Theorem saved_prediction_is_listed
    (d d' : SpecDb.t) (uid : nat) (path cls : string) (conf : Q) :
  SpecDb.wf d →
  SpecDb.save_prediction d uid path cls conf = inr d' →
  ∃ r before after,
    p_user_id r = uid ∧ p_image_path r = path
    ∧ p_prediction_class r = cls ∧ p_confidence r = conf
    ∧ SpecDb.get_user_predictions d uid = inr before
    ∧ SpecDb.get_user_predictions d' uid = inr after
    ∧ r ∈ after
    ∧ after ≡ₚ r :: before
    ∧ (∀ r', r' ∈ after → p_id r' = p_id r → r' = r)
    ∧ StronglySorted SpecDb.older_or_same after
    ∧ (before = [] → after = [r])
    ∧ (∀ uid', uid' ≠ uid →
         SpecDb.get_user_predictions d' uid' = SpecDb.get_user_predictions d uid').
Proof.
  intros [Hids _]. unfold SpecDb.save_prediction.
  destruct (negb (SpecDb.storage_ok d)); [discriminate|]. intros [= <-].
  set (r := SpecDb.new_record d uid path cls conf).
  set (mine := filter (fun p => SpecDb.owned_by uid p = true) (SpecDb.predictions d)).
  assert (SpecDb.sort_by_time (mine ++ [r]) ≡ₚ r :: SpecDb.sort_by_time mine) as Hperm.
  { rewrite !sort_by_time_perm. by rewrite Permutation_app_comm. }
  exists r, (SpecDb.sort_by_time mine), (SpecDb.sort_by_time (mine ++ [r])).
  repeat (split; [reflexivity|]).
  split.
  { unfold SpecDb.get_user_predictions. cbn [SpecDb.predictions].
    subst r mine. by rewrite filter_owned_by_new. }
  split. { rewrite Hperm. apply list_elem_of_here. }
  split; [exact Hperm|].
  split.
  { intros r' Hin Hid. rewrite Hperm in Hin.
    apply elem_of_cons in Hin as [->|Hin]; [done|].
    rewrite sort_by_time_perm in Hin. unfold mine in Hin.
    apply list_elem_of_filter in Hin as [_ Hin].
    specialize (Hids r' Hin). simpl in Hid. lia. }
  split; [apply sort_by_time_sorted|].
  split.
  { intros Hnil.
    assert (mine = []) as ->.
    { apply Permutation_nil_r. by rewrite <- Hnil, sort_by_time_perm. }
    reflexivity. }
  intros uid' Hne. unfold SpecDb.get_user_predictions. cbn [SpecDb.predictions].
  subst r. by rewrite filter_owned_by_other.
Qed.

Lemma saved_prediction_is_listed_witness :
  ∃ d' r,
    SpecDb.save_prediction Sample.store 1 "uploads/eye.png" "Moderate" (7#10)
    = inr d'
    ∧ SpecDb.get_user_predictions d' 1 = inr [r]
    ∧ p_user_id r = 1%nat ∧ p_image_path r = "uploads/eye.png"
    ∧ p_prediction_class r = "Moderate" ∧ p_confidence r = 7#10.
Proof.
  assert (SpecDb.wf Sample.store) as Hwf.
  { split.
    - intros r Hr. by apply elem_of_nil in Hr.
    - simpl. apply NoDup_singleton. }
  destruct (saved_prediction_is_listed Sample.store _ 1 "uploads/eye.png"
              "Moderate" (7#10) Hwf eq_refl)
    as (r & before & after & Hu & Hp & Hc & Hq & Hb & Ha & _ & _ & _ & _ & Hone & _).
  injection Hb as <-.
  eexists _, r. split; [reflexivity|].
  rewrite Ha, (Hone eq_refl). by repeat split.
Defined.

(** ** Login *)

(** C6: let [u] be a user row of a well-formed backend whose stored
    credential is that of the password [pw], and let the login form be
    submitted with the username of [u].  With the password [pw] the run
    reports success, the session user becomes [u], the page becomes
    'home' and a rerun is requested.  With a password whose credential
    differs from the stored one the run renders "Invalid username or
    password" and leaves the session user, the page and the database as
    they were. *)
Theorem login_checks_password
    (hash : string → string) {upload : Type}
    (i : inputs upload) (w : world SpecDb.t) (u : User) (pw : string) :
  SpecDb.wf (db w) →
  u ∈ SpecDb.users (db w) →
  u_password u = hash pw →
  in_login_submit i = true →
  in_login_username i = u_username u →
  (in_login_password i = pw →
   login_form (H := SpecDb.database hash) i w
   = (Rerun,
      mkWorld (db w) (Some u) "home"
        (out w ++ login_widgets ++ [Success "Login successful!"])
        (calls w ++ [CallAuthenticateUser (u_username u) pw])))
  ∧ (hash (in_login_password i) ≠ hash pw →
     login_form (H := SpecDb.database hash) i w
     = (Done tt,
        mkWorld (db w) (user w) (page w)
          (out w ++ login_widgets ++ [Error "Invalid username or password"])
          (calls w ++ [CallAuthenticateUser (u_username u) (in_login_password i)]))).
Proof.
  intros [_ Hnames] Hin Hcred Hsubmit Hname.
  pose proof (find_by_username _ _ Hnames Hin) as Hfind.
  destruct w as [d us pg o cs]. simpl in Hin, Hfind.
  unfold login_form. rewrite Hsubmit, Hname. split.
  - intros ->. run_script. unfold SpecDb.authenticate_user.
    rewrite Hfind, Hcred, String.eqb_refl. cbn.
    unfold login_widgets. rewrite <- !app_assoc. reflexivity.
  - intros Hwrong. run_script. unfold SpecDb.authenticate_user.
    rewrite Hfind, Hcred.
    destruct (String.eqb_spec (hash pw) (hash (in_login_password i))) as [Heq|_];
      [congruence|].
    cbn. unfold login_widgets. rewrite <- !app_assoc. reflexivity.
Qed.

Lemma login_checks_password_witness :
  login_form (H := SpecDb.database Sample.hash)
    (Sample.log_in "alice" "secret") Sample.logged_out
  = (Rerun,
     mkWorld Sample.store (Some Sample.alice) "home"
       (login_widgets ++ [Success "Login successful!"])
       [CallAuthenticateUser "alice" "secret"])
  ∧ login_form (H := SpecDb.database Sample.hash)
      (Sample.log_in "alice" "guess") Sample.logged_out
    = (Done tt,
       mkWorld Sample.store None "login"
         (login_widgets ++ [Error "Invalid username or password"])
         [CallAuthenticateUser "alice" "guess"]).
Proof.
  assert (SpecDb.wf Sample.store) as Hwf.
  { split.
    - intros r Hr. by apply elem_of_nil in Hr.
    - simpl. apply NoDup_singleton. }
  assert (Sample.alice ∈ SpecDb.users Sample.store) as Hin
    by apply list_elem_of_here.
  split.
  - by apply (login_checks_password Sample.hash (Sample.log_in "alice" "secret")
                Sample.logged_out Sample.alice "secret" Hwf Hin).
  - apply (login_checks_password Sample.hash (Sample.log_in "alice" "guess")
             Sample.logged_out Sample.alice "secret" Hwf Hin);
      [reflexivity..|discriminate].
Defined.

(** ** History *)

(** C7: for a logged-in user without prediction records,
    [get_user_predictions] returns the empty list (not an error) and
    [history_page] completes after rendering its title and "No prediction
    history available."; the world is otherwise unchanged. *)
Theorem empty_history_is_handled
    (hash : string → string) {upload tensor : Type} `{Utils upload tensor}
    (w : world SpecDb.t) (u : User) :
  user w = Some u →
  (∀ r, r ∈ SpecDb.predictions (db w) → p_user_id r ≠ u_id u) →
  SpecDb.get_user_predictions (db w) (u_id u) = inr []
  ∧ history_page (H := SpecDb.database hash) w
    = (Done tt,
       mkWorld (db w) (user w) (page w)
         (out w ++ [Title "Prediction History";
                    Info "No prediction history available."])
         (calls w ++ [CallGetUserPredictions (u_id u)])).
Proof.
  intros Hu Hnone.
  assert (SpecDb.get_user_predictions (db w) (u_id u) = inr []) as Hlist.
  { unfold SpecDb.get_user_predictions. f_equal.
    replace (filter (fun p => SpecDb.owned_by (u_id u) p = true)
               (SpecDb.predictions (db w))) with (@nil PredictionRecord);
      [reflexivity|].
    symmetry. apply elem_of_nil_inv. intros r Hr.
    apply list_elem_of_filter in Hr as [Howned Hr].
    apply Nat.eqb_eq in Howned. by apply (Hnone r Hr). }
  split; [exact Hlist|].
  destruct w as [d us pg o cs]. simpl in Hu, Hlist. subst us.
  unfold SpecDb.get_user_predictions in Hlist. injection Hlist as Hlist.
  unfold history_page. run_script. rewrite Hlist. cbn.
  rewrite <- !app_assoc. reflexivity.
Qed.

Lemma empty_history_is_handled_witness :
  SpecDb.get_user_predictions Sample.store 1 = inr []
  ∧ history_page (H := SpecDb.database Sample.hash) (H0 := Sample.utils)
      (Sample.logged_in "history")
    = (Done tt,
       mkWorld Sample.store (Some Sample.alice) "history"
         [Title "Prediction History"; Info "No prediction history available."]
         [CallGetUserPredictions 1]).
Proof.
  apply (empty_history_is_handled Sample.hash (H := Sample.utils)
           (Sample.logged_in "history") Sample.alice); [reflexivity|].
  intros r Hr. by apply elem_of_nil in Hr.
Defined.

(** ** The page around the workflow *)

#[local] Arguments home_page_predict : simpl never.

(** With a file uploaded and "Predict" clicked, [home_page] renders its
    upload section and runs lines 118-151 on the model's output for the
    saved and preprocessed image. *)
Lemma home_page_reaches_predict
    {DB : Type} `{Database DB} {upload tensor : Type} `{Utils upload tensor}
    (remedies_data : gmap string string) (i : inputs upload) (w : world DB)
    (f : upload) (image_path : string) (img_array : tensor)
    (prediction : list (list Q)) :
  in_uploaded_file i = Some f →
  image_open f = inr tt →
  in_predict i = true →
  save_uploaded_file f = inr image_path →
  preprocess_image image_path = inr img_array →
  model_predict img_array = inr prediction →
  home_page remedies_data i w
  = home_page_predict remedies_data image_path prediction
      (mkWorld (db w) (user w) (page w)
         (out w ++ [ Title "Diabetic Retinopathy Detection";
                     Header "Upload Retinal Image";
                     FileUploader "Choose an image...";
                     ImageUploaded "Uploaded Image";
                     Button "Predict" ])
         (calls w)).
Proof.
  intros Hf Hopen Hclick Hsave Hprep Hmodel.
  unfold home_page. rewrite Hf, Hopen, Hclick, Hsave.
  destruct w as [d us pg o cs]. run_script.
  rewrite Hprep. cbn. rewrite Hmodel. cbn.
  rewrite <- !app_assoc. reflexivity.
Qed.

(** ** Examples *)

(** Ties go to the first position of the maximum. *)
Example argmax_first_of_ties : Numpy.argmax [[1#2; 3#4; 3#4; 0]] = inr 1%nat.
Proof. reflexivity. Qed.

Example argmax_of_empty : Numpy.argmax [[]] = inl ValueError.
Proof. reflexivity. Qed.

(** On a batch of two images the flattened index leaves the first row. *)
Example argmax_of_two_rows :
  Numpy.argmax [[1#2; 1#2; 0; 0]; [0; 0; 0; 1]] = inr 7%nat.
Proof. reflexivity. Qed.

Example sort_by_time_example :
  map p_id
    (SpecDb.sort_by_time
       [ mkPrediction 1 1 "a.png" "Mild" (1#2) 30;
         mkPrediction 2 1 "b.png" "Severe" (1#2) 10;
         mkPrediction 3 1 "c.png" "Mild" (1#2) 30 ])
  = [2; 1; 3]%nat.
Proof. reflexivity. Qed.

(** A whole run of [main]: alice, on the home page, uploads a file and
    clicks "Predict". *)
Example main_predict_run :
  let i := mkInputs string (fun _ => false) "" "" false "" "" "" "" "" false
             (Some "eye.png") true None None false false false false false in
  let r := main (H := SpecDb.database Sample.hash) (H0 := Sample.utils)
             Sample.remedies i (Sample.logged_in "home") in
  r.1 = Done tt
  ∧ calls r.2 = [CallSavePrediction 1 "uploads/eye.png" "Moderate" (7#10)]
  ∧ SpecDb.predictions (db r.2)
    = [mkPrediction 1 1 "uploads/eye.png" "Moderate" (7#10) 5]
  ∧ MdRemedy "No remedy available" ∈ out r.2.
Proof.
  cbv zeta. split; [vm_compute; reflexivity|].
  split; [vm_compute; reflexivity|].
  split; [vm_compute; reflexivity|].
  apply list_elem_of_In. vm_compute. tauto.
Qed.

(** * Further properties of the script *)

(** ** What a run leaves unchanged *)

Section Keeps.

Context {DB X : Type} (f : world DB → X).

Lemma keeps_ret {A} (a : A) : keeps f (ret (DB := DB) a).
Proof. by intros w o w' [= <- <-]. Qed.

Lemma keeps_raise {A} (e : exn) : keeps f (raise (DB := DB) (A := A) e).
Proof. by intros w o w' [= <- <-]. Qed.

Lemma keeps_rerun {A} : keeps f (experimental_rerun (DB := DB) (A := A)).
Proof. by intros w o w' [= <- <-]. Qed.

Lemma keeps_lift {A} (r : exn + A) : keeps f (lift (DB := DB) r).
Proof. destruct r; [apply keeps_raise | apply keeps_ret]. Qed.

Lemma keeps_get_user : keeps f (get_user (DB := DB)).
Proof. by intros w o w' [= <- <-]. Qed.

Lemma keeps_get_page : keeps f (get_page (DB := DB)).
Proof. by intros w o w' [= <- <-]. Qed.

Lemma keeps_bind {A B} (m : M DB A) (k : A → M DB B) :
  keeps f m → (∀ a, keeps f (k a)) → keeps f (bind m k).
Proof.
  intros Hm Hk w o w' Hrun. unfold bind in Hrun.
  destruct (m w) as [[a| |e] w1] eqn:Hmw.
  - rewrite (Hk a _ _ _ Hrun). by apply (Hm _ _ _ Hmw).
  - injection Hrun as <- <-. by apply (Hm _ _ _ Hmw).
  - injection Hrun as <- <-. by apply (Hm _ _ _ Hmw).
Qed.

Lemma keeps_try_except {A} (body : M DB A) (handler : exn → M DB A) :
  keeps f body → (∀ e, keeps f (handler e)) → keeps f (try_except body handler).
Proof.
  intros Hb Hh w o w' Hrun. unfold try_except in Hrun.
  destruct (body w) as [[a| |e] w1] eqn:Hbw.
  - injection Hrun as <- <-. by apply (Hb _ _ _ Hbw).
  - injection Hrun as <- <-. by apply (Hb _ _ _ Hbw).
  - rewrite (Hh e _ _ _ Hrun). by apply (Hb _ _ _ Hbw).
Qed.

Lemma keeps_for_each {A} (l : list A) (body : A → M DB unit) :
  (∀ x, keeps f (body x)) → keeps f (for_each l body).
Proof.
  intros Hb. induction l as [|x t IH]; simpl.
  - apply keeps_ret.
  - apply keeps_bind; [apply Hb | intros _; exact IH].
Qed.

Lemma keeps_session_user_id : keeps f (session_user_id (DB := DB)).
Proof.
  apply keeps_bind; [apply keeps_get_user|].
  intros [u|]; [apply keeps_ret | apply keeps_raise].
Qed.

(** The primitives that write one component keep every [f] that does
    not read that component. *)

Lemma keeps_st (e : ui) :
  (∀ w l, f (mkWorld (db w) (user w) (page w) l (calls w)) = f w) →
  keeps f (st e).
Proof. intros Hf w o w' [= <- <-]. apply Hf. Qed.

Lemma keeps_log_call (c : db_call) :
  (∀ w l, f (mkWorld (db w) (user w) (page w) (out w) l) = f w) →
  keeps f (log_call c).
Proof. intros Hf w o w' [= <- <-]. apply Hf. Qed.

Lemma keeps_db_read {A} (c : db_call) (g : DB → exn + A) :
  (∀ w l, f (mkWorld (db w) (user w) (page w) (out w) l) = f w) →
  keeps f (db_read c g).
Proof.
  intros Hf. unfold db_read. apply keeps_bind; [by apply keeps_log_call|].
  intros _ w o w'. destruct (g (db w)); by intros [= <- <-].
Qed.

Lemma keeps_db_write (c : db_call) (g : DB → exn + DB) :
  (∀ w l, f (mkWorld (db w) (user w) (page w) (out w) l) = f w) →
  (∀ w d, f (mkWorld d (user w) (page w) (out w) (calls w)) = f w) →
  keeps f (db_write c g).
Proof.
  intros Hcalls Hdb. unfold db_write. apply keeps_bind; [by apply keeps_log_call|].
  intros _ w o w'. destruct (g (db w)); intros [= <- <-]; [done | apply Hdb].
Qed.

Lemma keeps_set_user (u : option User) :
  (∀ w u', f (mkWorld (db w) u' (page w) (out w) (calls w)) = f w) →
  keeps f (set_user u).
Proof. intros Hf w o w' [= <- <-]. apply Hf. Qed.

Lemma keeps_set_page (p : string) :
  (∀ w p', f (mkWorld (db w) (user w) p' (out w) (calls w)) = f w) →
  keeps f (set_page p).
Proof. intros Hf w o w' [= <- <-]. apply Hf. Qed.

End Keeps.

(** Decomposition of script code along its structure; the side
    conditions on [f] are closed by computation, so the tactic stops at a
    primitive that writes what [f] reads. *)
Ltac keeps_step :=
  lazymatch goal with
  | |- keeps _ (bind _ _) => apply keeps_bind; [|intros ?]
  | |- keeps _ (try_except _ _) => apply keeps_try_except; [|intros ?]
  | |- keeps _ (st _) => apply keeps_st; intros; reflexivity
  | |- keeps _ (ret _) => apply keeps_ret
  | |- keeps _ (raise _) => apply keeps_raise
  | |- keeps _ experimental_rerun => apply keeps_rerun
  | |- keeps _ (lift _) => apply keeps_lift
  | |- keeps _ get_user => apply keeps_get_user
  | |- keeps _ get_page => apply keeps_get_page
  | |- keeps _ session_user_id => apply keeps_session_user_id
  | |- keeps _ (db_read _ _) => apply keeps_db_read; intros; reflexivity
  | |- keeps _ (db_write _ _) => apply keeps_db_write; intros; reflexivity
  | |- keeps _ (set_user _) => apply keeps_set_user; intros; reflexivity
  | |- keeps _ (set_page _) => apply keeps_set_page; intros; reflexivity
  | |- keeps _ (for_each _ _) => apply keeps_for_each; intros ?
  | |- keeps _ (if ?b then _ else _) => destruct b
  | |- keeps _ (match ?x with _ => _ end) => destruct x
  end.

Lemma home_page_keeps_session
    {DB : Type} `{Database DB} {upload tensor : Type} `{Utils upload tensor}
    (remedies_data : gmap string string) (i : inputs upload) :
  keeps (DB := DB) session (home_page remedies_data i).
Proof. unfold home_page, home_page_predict. repeat keeps_step. Qed.

Lemma history_page_keeps_session
    {DB : Type} `{Database DB} {upload tensor : Type} `{Utils upload tensor} :
  keeps (DB := DB) session history_page.
Proof. unfold history_page, history_entry. repeat keeps_step. Qed.

Lemma profile_page_keeps_session
    {DB : Type} `{Database DB} {upload : Type} (i : inputs upload) :
  keeps (DB := DB) session (profile_page i).
Proof. unfold profile_page. repeat keeps_step. Qed.

(** X1: the three pages behind the login never change the session: after
    a run of [home_page], [history_page] or [profile_page], however it
    ends, [st.session_state.user] and [st.session_state.page] are what
    they were. *)
Theorem pages_keep_session
    {DB : Type} `{Database DB} {upload tensor : Type} `{Utils upload tensor}
    (remedies_data : gmap string string) (i : inputs upload) :
  keeps (DB := DB) session (home_page remedies_data i)
  ∧ keeps (DB := DB) session history_page
  ∧ keeps (DB := DB) session (profile_page i).
Proof.
  split; [|split].
  - apply home_page_keeps_session.
  - apply history_page_keeps_session.
  - apply profile_page_keeps_session.
Qed.

(** ** The history page *)

Lemma for_each_history_entry
    {DB : Type} {upload tensor : Type} `{Utils upload tensor}
    (l : list PredictionRecord) (w : world DB) :
  Forall image_loads l →
  for_each l history_entry w = (Done tt, after w (db w) (flat_map entry_elements l) []).
Proof.
  intros Hall. revert w.
  induction Hall as [|p t Hp _ IH]; intros [d us pg o cs].
  - unfold after. simpl. by rewrite !app_nil_r.
  - simpl. unfold history_entry. run_script. unfold image_loads in Hp.
    rewrite Hp. cbn. rewrite IH. unfold after. cbn.
    rewrite !app_nil_r, <- !app_assoc. reflexivity.
Qed.

(** The loop stops at the first record whose image cannot be opened. *)
Lemma for_each_history_entry_fails
    {DB : Type} {upload tensor : Type} `{Utils upload tensor}
    (pre : list PredictionRecord) (p : PredictionRecord)
    (rest : list PredictionRecord) (e : exn) (w : world DB) :
  Forall image_loads pre →
  image_file_load (p_image_path p) = inl e →
  for_each (pre ++ p :: rest) history_entry w
  = (Raised e,
     after w (db w)
       (flat_map entry_elements pre
        ++ [Expander ("Prediction on " +:+ format_date (p_created_at p))])
       []).
Proof.
  intros Hall Hp. revert w.
  induction Hall as [|q t Hq _ IH]; intros [d us pg o cs].
  - simpl. unfold history_entry. run_script. rewrite Hp. cbn.
    unfold after. cbn. by rewrite app_nil_r.
  - simpl. unfold history_entry at 1. run_script. unfold image_loads in Hq.
    rewrite Hq. cbn. rewrite IH. unfold after. cbn.
    rewrite !app_nil_r, <- !app_assoc. reflexivity.
Qed.

Lemma images_load_or_fail
    {upload tensor : Type} `{Utils upload tensor} (l : list PredictionRecord) :
  Forall image_loads l
  ∨ ∃ pre p rest e,
      l = pre ++ p :: rest ∧ Forall image_loads pre
      ∧ image_file_load (p_image_path p) = inl e.
Proof.
  induction l as [|p t IH]; [by left|].
  destruct (image_file_load (p_image_path p)) as [e|[]] eqn:Hp.
  - right. by exists [], p, t, e.
  - destruct IH as [Hall|(pre & q & rest & e & -> & Hpre & Hq)].
    + left. by constructor.
    + right. exists (p :: pre), q, rest, e. repeat split; [by constructor | done].
Qed.

(** A run of [history_page] for the session user [u]: up to the
    listing. *)
Lemma history_page_listing
    {DB : Type} `{Database DB} {upload tensor : Type} `{Utils upload tensor}
    (w : world DB) (u : User) :
  user w = Some u →
  history_page w
  = match get_user_predictions (db w) (u_id u) with
    | inl e =>
        (Raised e,
         after w (db w) [Title "Prediction History"]
           [CallGetUserPredictions (u_id u)])
    | inr [] =>
        (Done tt,
         after w (db w) (history_elements [])
           [CallGetUserPredictions (u_id u)])
    | inr l =>
        (for_each l history_entry ;;
         st (Subheader "Prediction Trend") ;;
         if plot_prediction_history l then st (HistoryChart l) else ret tt)
          (after w (db w) [Title "Prediction History"]
             [CallGetUserPredictions (u_id u)])
    end.
Proof.
  intros Hu. destruct w as [d us pg o cs]. simpl in Hu. subst us.
  unfold history_page, after. run_script.
  destruct (get_user_predictions d (u_id u)) as [e|l]; cbn; [reflexivity|].
  destruct l as [|p l]; [cbn; by rewrite <- !app_assoc|]. reflexivity.
Qed.

(** ... when every image can be opened. *)
Lemma history_page_run
    {DB : Type} `{Database DB} {upload tensor : Type} `{Utils upload tensor}
    (w : world DB) (u : User) (l : list PredictionRecord) :
  user w = Some u →
  get_user_predictions (db w) (u_id u) = inr l →
  Forall image_loads l →
  history_page w
  = (Done tt,
     after w (db w) (history_elements l) [CallGetUserPredictions (u_id u)]).
Proof.
  intros Hu Hl Hall. rewrite (history_page_listing w u Hu), Hl.
  destruct l as [|p l]; [reflexivity|].
  unfold bind. rewrite (for_each_history_entry _ _ Hall).
  unfold after, history_elements, st, ret.
  destruct (plot_prediction_history (p :: l)); cbn [db user page out calls];
    rewrite ?app_nil_r, <- !app_assoc; reflexivity.
Qed.

(** ... when the image of [p] is the first that cannot be opened. *)
Lemma history_page_run_fails
    {DB : Type} `{Database DB} {upload tensor : Type} `{Utils upload tensor}
    (w : world DB) (u : User) (pre : list PredictionRecord)
    (p : PredictionRecord) (rest : list PredictionRecord) (e : exn) :
  user w = Some u →
  get_user_predictions (db w) (u_id u) = inr (pre ++ p :: rest) →
  Forall image_loads pre →
  image_file_load (p_image_path p) = inl e →
  history_page w
  = (Raised e,
     after w (db w)
       ((Title "Prediction History" :: flat_map entry_elements pre)
        ++ [Expander ("Prediction on " +:+ format_date (p_created_at p))])
       [CallGetUserPredictions (u_id u)]).
Proof.
  intros Hu Hl Hall Hp. rewrite (history_page_listing w u Hu), Hl.
  assert (∀ X (x : X) y, match pre ++ p :: rest with [] => x | _ :: _ => y end = y)
    as Hmatch by (intros; by destruct pre).
  rewrite Hmatch. unfold bind.
  rewrite (for_each_history_entry_fails _ _ _ _ _ Hall Hp).
  unfold after. cbn [db user page out calls].
  rewrite ?app_nil_r, <- !app_assoc. reflexivity.
Qed.

(** X2: let the listing of a logged-in user be the non-empty list [l].
    If the image stored with every record of [l] can be opened,
    [history_page] completes and renders, after its title, the five
    elements of each record of [l] in the order of [l], then the trend
    subheader, and the chart exactly when [plot_prediction_history]
    returns a figure.  If the image of a record [p] is the first that
    cannot be opened, the run ends with the exception of [st.image] after
    the entries before [p] and the expander of [p]; nothing of the later
    records, the trend or the chart is rendered. *)
Theorem history_page_renders_entries
    {DB : Type} `{Database DB} {upload tensor : Type} `{Utils upload tensor}
    (w : world DB) (u : User) (l : list PredictionRecord) :
  user w = Some u →
  get_user_predictions (db w) (u_id u) = inr l →
  l ≠ [] →
  (Forall image_loads l →
   history_page w
   = (Done tt,
      after w (db w)
        ((Title "Prediction History" :: flat_map entry_elements l)
         ++ Subheader "Prediction Trend"
            :: (if plot_prediction_history l then [HistoryChart l] else []))
        [CallGetUserPredictions (u_id u)]))
  ∧ (∀ pre p rest e,
       l = pre ++ p :: rest →
       Forall image_loads pre →
       image_file_load (p_image_path p) = inl e →
       history_page w
       = (Raised e,
          after w (db w)
            ((Title "Prediction History" :: flat_map entry_elements pre)
             ++ [Expander ("Prediction on " +:+ format_date (p_created_at p))])
            [CallGetUserPredictions (u_id u)])).
Proof.
  intros Hu Hl Hne. split.
  - intros Hall. rewrite (history_page_run w u l Hu Hl Hall). by destruct l.
  - intros pre p rest e -> Hall Hp.
    exact (history_page_run_fails w u pre p rest e Hu Hl Hall Hp).
Qed.

Lemma history_page_renders_entries_witness :
  let kept := mkPrediction 1 1 "a.png" "Mild" (6#10) 3 in
  let gone := mkPrediction 2 1 "gone.png" "Severe" (9#10) 4 in
  let last := mkPrediction 3 1 "c.png" "Mild" (7#10) 5 in
  let w := mkWorld (SpecDb.mk [Sample.alice] [kept; gone; last] 2 4 6 true)
             (Some Sample.alice) "history" [] [] in
  (history_page (H := SpecDb.database Sample.hash) (H0 := Sample.utils) w).1
  = Done tt
  ∧ history_page (H := SpecDb.database Sample.hash) (H0 := Scenario.utils) w
    = (Raised Scenario.missing_file,
       after w (db w)
         ((Title "Prediction History"
           :: flat_map (entry_elements (H := Scenario.utils)) [kept])
          ++ [Expander "Prediction on 2024-01-01"])
         [CallGetUserPredictions 1]).
Proof.
  intros kept gone last w.
  destruct (history_page_renders_entries (H := SpecDb.database Sample.hash)
              (H0 := Sample.utils) w Sample.alice [kept; gone; last]
              eq_refl eq_refl) as [Hok _]; [discriminate|].
  destruct (history_page_renders_entries (H := SpecDb.database Sample.hash)
              (H0 := Scenario.utils) w Sample.alice [kept; gone; last]
              eq_refl eq_refl) as [_ Hfail]; [discriminate|].
  split.
  - rewrite Hok; [reflexivity|]. by repeat constructor.
  - apply (Hfail [kept] gone [last] Scenario.missing_file eq_refl);
      [by repeat constructor | reflexivity].
Defined.

(** X3: a run of [history_page] for a logged-in user never writes to the
    database and never changes the session or asks for a rerun; its only
    database call is the listing for the id of the session user, and an
    exception of that call ends the run (it is not caught). *)
Theorem history_page_read_only
    {DB : Type} `{Database DB} {upload tensor : Type} `{Utils upload tensor}
    (w : world DB) (u : User) o w' :
  user w = Some u →
  history_page w = (o, w') →
  db w' = db w
  ∧ session w' = session w
  ∧ calls w' = calls w ++ [CallGetUserPredictions (u_id u)]
  ∧ o ≠ Rerun
  ∧ (∀ e, get_user_predictions (db w) (u_id u) = inl e → o = Raised e).
Proof.
  intros Hu Hrun.
  destruct (get_user_predictions (db w) (u_id u)) as [e|l] eqn:Hl.
  - rewrite (history_page_listing w u Hu), Hl in Hrun.
    injection Hrun as <- <-. repeat split; try done. by intros e' [= ->].
  - destruct (images_load_or_fail l)
      as [Hall|(pre & p & rest & e & -> & Hpre & Hp)].
    + rewrite (history_page_run w u l Hu Hl Hall) in Hrun.
      injection Hrun as <- <-. by repeat split.
    + rewrite (history_page_run_fails w u pre p rest e Hu Hl Hpre Hp) in Hrun.
      injection Hrun as <- <-. by repeat split.
Qed.

Lemma history_page_read_only_witness :
  let w := mkWorld tt (Some Sample.alice) "history" [] [] in
  let r := history_page (H := offline_database) (H0 := Sample.utils) w in
  r.1 = Raised offline_error ∧ calls r.2 = [CallGetUserPredictions 1].
Proof.
  intros w r.
  destruct (history_page_read_only (H := offline_database) (H0 := Sample.utils)
              w Sample.alice r.1 r.2 eq_refl (surjective_pairing r))
    as (_ & _ & Hcalls & _ & Hexn).
  split; [by apply Hexn | exact Hcalls].
Defined.

(** ** The forms of the authentication page *)

(** X4: a submitted sign-up form with matching passwords calls
    [create_user] once with the typed values.  If the call returns, the
    database is replaced, the success message is rendered, the page
    becomes 'login' and a rerun is requested; if it raises [e], the
    exception is caught, "Error creating account: " followed by [str(e)]
    is rendered, the run goes on and the database and the session are
    unchanged. *)
Theorem signup_creates_or_reports
    {DB : Type} `{Database DB} {upload : Type}
    (i : inputs upload) (w : world DB) :
  in_signup_submit i = true →
  in_signup_password i = in_signup_confirm i →
  let call := CallCreateUser (in_signup_username i) (in_signup_email i)
                (in_signup_password i) (in_signup_full_name i) in
  signup_form i w
  = match create_user (db w) (in_signup_username i) (in_signup_email i)
            (in_signup_password i) (in_signup_full_name i) with
    | inr d' =>
        (Rerun,
         mkWorld d' (user w) "login"
           (out w ++ signup_widgets
            ++ [Success "Account created successfully! Please login."])
           (calls w ++ [call]))
    | inl e =>
        (Done tt,
         after w (db w)
           (signup_widgets ++ [Error ("Error creating account: " +:+ exn_str e)])
           [call])
    end.
Proof.
  intros Hsubmit Heq call. subst call.
  unfold signup_form, after. rewrite Hsubmit, Heq, String.eqb_refl.
  destruct w as [d us pg o cs]. run_script.
  destruct (create_user d _ _ _ _) as [e|d']; cbn;
    unfold signup_widgets; rewrite <- !app_assoc; reflexivity.
Qed.

Lemma signup_creates_or_reports_witness :
  (signup_form (H := SpecDb.database Sample.hash)
     (Sample.sign_up "bob" "bob@example.org" "pw" "pw" "Bob") Sample.logged_out).1
  = Rerun
  ∧ signup_form (H := SpecDb.database Sample.hash)
      (Sample.sign_up "alice" "a@example.org" "pw" "pw" "Alice") Sample.logged_out
    = (Done tt,
       after Sample.logged_out Sample.store
         (signup_widgets
          ++ [Error "Error creating account: username already exists"])
         [CallCreateUser "alice" "a@example.org" "pw" "Alice"]).
Proof.
  split.
  - rewrite (signup_creates_or_reports (H := SpecDb.database Sample.hash)
               (Sample.sign_up "bob" "bob@example.org" "pw" "pw" "Bob")
               Sample.logged_out eq_refl eq_refl).
    reflexivity.
  - apply (signup_creates_or_reports (H := SpecDb.database Sample.hash)
             (Sample.sign_up "alice" "a@example.org" "pw" "pw" "Alice")
             Sample.logged_out eq_refl eq_refl).
Defined.

(** How a run of [signup_form] can end. *)
Lemma signup_form_ends
    {DB : Type} `{Database DB} {upload : Type}
    (i : inputs upload) (w : world DB) o w' :
  signup_form i w = (o, w') →
  user w' = user w
  ∧ ((o = Done tt ∧ page w' = page w) ∨ (o = Rerun ∧ page w' = "login")).
Proof.
  destruct w as [d us pg o0 cs]. unfold signup_form.
  destruct (in_signup_submit i);
    [destruct (negb (in_signup_password i =? in_signup_confirm i))|];
    run_script; try (intros [= <- <-]; split; [done | by left]).
  destruct (create_user d _ _ _ _) as [e|d']; cbn;
    intros [= <- <-]; split; try done; [by left | by right].
Qed.

(** X5: whatever is typed and whatever the database does, a run of
    [signup_form] never ends with an exception and never changes the
    session user; it asks for a rerun only after setting the page to
    'login', and otherwise leaves the page as it was. *)
Theorem signup_never_raises
    {DB : Type} `{Database DB} {upload : Type}
    (i : inputs upload) (w : world DB) o w' :
  signup_form i w = (o, w') →
  user w' = user w
  ∧ ((o = Done tt ∧ page w' = page w) ∨ (o = Rerun ∧ page w' = "login")).
Proof. apply signup_form_ends. Qed.

(** A run of [login_form] after a submit, by the answer of the database. *)
Lemma login_form_run
    {DB : Type} `{Database DB} {upload : Type}
    (i : inputs upload) (w : world DB) :
  in_login_submit i = true →
  let call := CallAuthenticateUser (in_login_username i) (in_login_password i) in
  login_form i w
  = match authenticate_user (db w) (in_login_username i) (in_login_password i) with
    | inr (Some u) =>
        (Rerun,
         mkWorld (db w) (Some u) "home"
           (out w ++ login_widgets ++ [Success "Login successful!"])
           (calls w ++ [call]))
    | inr None =>
        (Done tt,
         after w (db w)
           (login_widgets ++ [Error "Invalid username or password"]) [call])
    | inl e => (Raised e, after w (db w) login_widgets [call])
    end.
Proof.
  intros Hsubmit call. subst call. unfold login_form, after. rewrite Hsubmit.
  destruct w as [d us pg o cs]. run_script.
  destruct (authenticate_user d _ _) as [e|[u|]]; cbn;
    unfold login_widgets; rewrite <- !app_assoc; reflexivity.
Qed.

(** X6: a submitted login form calls [authenticate_user] once with the
    typed username and password and never changes the database.  A user
    returned becomes the session user, the page becomes 'home' and a
    rerun is requested; an empty result renders "Invalid username or
    password" and leaves the session as it was; an exception of the call
    is not caught and ends the run with the session as it was. *)
Theorem login_form_outcome
    {DB : Type} `{Database DB} {upload : Type}
    (i : inputs upload) (w : world DB) :
  in_login_submit i = true →
  let call := CallAuthenticateUser (in_login_username i) (in_login_password i) in
  login_form i w
  = match authenticate_user (db w) (in_login_username i) (in_login_password i) with
    | inr (Some u) =>
        (Rerun,
         mkWorld (db w) (Some u) "home"
           (out w ++ login_widgets ++ [Success "Login successful!"])
           (calls w ++ [call]))
    | inr None =>
        (Done tt,
         after w (db w)
           (login_widgets ++ [Error "Invalid username or password"]) [call])
    | inl e => (Raised e, after w (db w) login_widgets [call])
    end.
Proof. apply login_form_run. Qed.

Lemma login_form_outcome_witness :
  login_form (H := offline_database) (Sample.log_in "alice" "secret")
    (mkWorld tt None "login" [] [])
  = (Raised offline_error,
     mkWorld tt None "login" login_widgets [CallAuthenticateUser "alice" "secret"]).
Proof.
  apply (login_form_outcome (H := offline_database)
           (Sample.log_in "alice" "secret") (mkWorld tt None "login" [] []) eq_refl).
Defined.

Lemma signup_never_raises_witness :
  let r := signup_form (H := offline_database)
             (Sample.sign_up "bob" "bob@example.org" "pw" "pw" "Bob")
             (mkWorld tt None "login" [] []) in
  user r.2 = None
  ∧ ((r.1 = Done tt ∧ page r.2 = "login") ∨ (r.1 = Rerun ∧ page r.2 = "login")).
Proof.
  intros r.
  apply (signup_never_raises (H := offline_database)
           (Sample.sign_up "bob" "bob@example.org" "pw" "pw" "Bob")
           (mkWorld tt None "login" [] []) r.1 r.2 (surjective_pairing r)).
Defined.

(** ** The profile page *)

(** A run of [profile_page] for the session user [su], by the answers
    of the database. *)
Lemma profile_page_run
    {DB : Type} `{Database DB} {upload : Type}
    (i : inputs upload) (w : world DB) (su : User) :
  user w = Some su →
  profile_page i w
  = match get_user_by_id (db w) (u_id su) with
    | inl e =>
        (Raised e, after w (db w) [Title "User Profile"] [CallGetUserById (u_id su)])
    | inr None =>
        (Raised TypeError,
         after w (db w) [Title "User Profile"] [CallGetUserById (u_id su)])
    | inr (Some row) =>
        let email := default (u_email row) (in_profile_email i) in
        let full_name :=
          default (default "" (u_full_name row)) (in_profile_full_name i) in
        if in_profile_submit i then
          match update_user_profile (db w) (u_id row) full_name email with
          | inr d' =>
              (Done tt,
               after w d'
                 (profile_widgets row ++ [Success "Profile updated successfully!"])
                 [CallGetUserById (u_id su);
                  CallUpdateUserProfile (u_id row) full_name email])
          | inl e =>
              (Done tt,
               after w (db w)
                 (profile_widgets row
                  ++ [Error ("Error updating profile: " +:+ exn_str e)])
                 [CallGetUserById (u_id su);
                  CallUpdateUserProfile (u_id row) full_name email])
          end
        else
          (Done tt, after w (db w) (profile_widgets row) [CallGetUserById (u_id su)])
    end.
Proof.
  intros Hu. destruct w as [d us pg o cs]. simpl in Hu. subst us.
  unfold profile_page, after. run_script.
  destruct (get_user_by_id d (u_id su)) as [e|[row|]]; cbn; try reflexivity.
  destruct (in_profile_submit i); cbn.
  - destruct (update_user_profile d _ _ _) as [e|d']; cbn;
      rewrite <- !app_assoc; reflexivity.
  - rewrite <- !app_assoc. reflexivity.
Qed.

(** X7: when the session user's row is found and the profile form is
    submitted, [profile_page] calls [update_user_profile] once, for the id
    of that row, with the typed full name and email, an untouched field
    standing for the stored value (the empty string for a NULL full
    name).  If the call returns, the database is replaced and the success
    message rendered; if it raises [e], the exception is caught, "Error
    updating profile: " followed by [str(e)] is rendered and the database
    is unchanged.  The run completes in both cases. *)
Theorem profile_update_outcome
    {DB : Type} `{Database DB} {upload : Type}
    (i : inputs upload) (w : world DB) (su row : User) :
  user w = Some su →
  get_user_by_id (db w) (u_id su) = inr (Some row) →
  in_profile_submit i = true →
  let email := default (u_email row) (in_profile_email i) in
  let full_name := default (default "" (u_full_name row)) (in_profile_full_name i) in
  let cs := [CallGetUserById (u_id su);
             CallUpdateUserProfile (u_id row) full_name email] in
  profile_page i w
  = match update_user_profile (db w) (u_id row) full_name email with
    | inr d' =>
        (Done tt,
         after w d'
           (profile_widgets row ++ [Success "Profile updated successfully!"]) cs)
    | inl e =>
        (Done tt,
         after w (db w)
           (profile_widgets row ++ [Error ("Error updating profile: " +:+ exn_str e)])
           cs)
    end.
Proof.
  intros Hu Hrow Hsubmit email full_name cs.
  rewrite (profile_page_run i w su Hu), Hrow. cbv zeta. by rewrite Hsubmit.
Qed.

(** X8: when the database has no row for the id of the session user,
    [profile_page] ends with [TypeError] right after its title: no form is
    rendered and [update_user_profile] is not called, whatever was
    submitted. *)
Theorem profile_without_row
    {DB : Type} `{Database DB} {upload : Type}
    (i : inputs upload) (w : world DB) (su : User) :
  user w = Some su →
  get_user_by_id (db w) (u_id su) = inr None →
  profile_page i w
  = (Raised TypeError,
     after w (db w) [Title "User Profile"] [CallGetUserById (u_id su)]).
Proof.
  intros Hu Hrow. by rewrite (profile_page_run i w su Hu), Hrow.
Qed.

Lemma profile_update_outcome_witness :
  let r := profile_page (H := SpecDb.database Sample.hash)
             (Scenario.edit_profile (Some "new@example.org") None)
             (Sample.logged_in "profile") in
  r.1 = Done tt
  ∧ SpecDb.users (db r.2)
    = [mkUser 1 "alice" "new@example.org" (Sample.hash "secret") (Some "Alice A.") 0]
  ∧ calls r.2
    = [CallGetUserById 1; CallUpdateUserProfile 1 "Alice A." "new@example.org"].
Proof.
  intros r. subst r.
  rewrite (profile_update_outcome (H := SpecDb.database Sample.hash)
             (Scenario.edit_profile (Some "new@example.org") None)
             (Sample.logged_in "profile") Sample.alice Sample.alice
             eq_refl eq_refl eq_refl).
  repeat split.
Defined.

Lemma profile_without_row_witness :
  profile_page (H := SpecDb.database Sample.hash)
    (Scenario.edit_profile None None)
    (mkWorld Sample.store (Some Scenario.ghost) "profile" [] [])
  = (Raised TypeError,
     mkWorld Sample.store (Some Scenario.ghost) "profile"
       [Title "User Profile"] [CallGetUserById 9]).
Proof.
  apply (profile_without_row (H := SpecDb.database Sample.hash)
           (Scenario.edit_profile None None)
           (mkWorld Sample.store (Some Scenario.ghost) "profile" [] [])
           Scenario.ghost eq_refl eq_refl).
Defined.

(** ** Whole runs of [main] *)

#[local] Arguments login_form : simpl never.
#[local] Arguments signup_form : simpl never.
#[local] Arguments home_page : simpl never.
#[local] Arguments history_page : simpl never.
#[local] Arguments profile_page : simpl never.

Lemma login_form_idle {DB : Type} `{Database DB} {upload : Type}
    (i : inputs upload) (w : world DB) :
  in_login_submit i = false →
  login_form i w
  = (Done tt, mkWorld (db w) (user w) (page w) (out w ++ login_widgets) (calls w)).
Proof.
  intros Hsubmit. unfold login_form. rewrite Hsubmit.
  destruct w as [d us pg o cs]. run_script.
  unfold login_widgets. rewrite <- !app_assoc. reflexivity.
Qed.

Lemma auth_page_unfold {DB : Type} `{Database DB} {upload : Type}
    (i : inputs upload) (w : world DB) :
  auth_page i w
  = (login_form i ;; signup_form i)
      (mkWorld (db w) (user w) (page w) (out w ++ auth_header i) (calls w)).
Proof.
  unfold auth_page, auth_header. destruct w as [d us pg o cs].
  destruct (file_exists i "assets/login_image.png"); run_script;
    rewrite <- !app_assoc; reflexivity.
Qed.

(** The sidebar, by the buttons clicked. *)
Lemma sidebar_run {DB : Type} {upload : Type} (i : inputs upload) (w : world DB) :
  sidebar i w
  = match nav_click i with
    | Some p =>
        (Rerun, mkWorld (db w) (user w) p (out w ++ sidebar_prefix i) (calls w))
    | None =>
        if in_btn_logout i then
          (Rerun, mkWorld (db w) None "login" (out w ++ sidebar_elements i) (calls w))
        else
          (Done tt,
           mkWorld (db w) (user w) (page w) (out w ++ sidebar_elements i) (calls w))
    end.
Proof.
  unfold sidebar, nav_click, sidebar_prefix, sidebar_elements.
  destruct w as [d us pg o cs].
  destruct (file_exists i "assets/logo.png"), (in_btn_home i), (in_btn_history i),
    (in_btn_profile i), (in_btn_logout i); run_script;
    rewrite <- ?app_assoc; reflexivity.
Qed.

Lemma main_logged_in
    {DB : Type} `{Database DB} {upload tensor : Type} `{Utils upload tensor}
    (remedies_data : gmap string string) (i : inputs upload) (w : world DB) (u : User) :
  user w = Some u →
  main remedies_data i w
  = (sidebar i ;; routing remedies_data i)
      (mkWorld (db w) (user w) (page w) (out w ++ [page_config]) (calls w)).
Proof.
  intros Hu. destruct w as [d us pg o cs]. simpl in Hu. subst us. reflexivity.
Qed.

Lemma routing_logged_in
    {DB : Type} `{Database DB} {upload tensor : Type} `{Utils upload tensor}
    (remedies_data : gmap string string) (i : inputs upload) (w : world DB) (u : User) :
  user w = Some u →
  routing remedies_data i w
  = if String.eqb (page w) "home" then home_page remedies_data i w
    else if String.eqb (page w) "history" then history_page w
    else if String.eqb (page w) "profile" then profile_page i w
    else (Done tt, w).
Proof.
  intros Hu. destruct w as [d us pg o cs]. simpl in Hu. subst us.
  unfold routing. run_script.
  by destruct (pg =? "home"), (pg =? "history"), (pg =? "profile").
Qed.

Lemma routing_keeps_session
    {DB : Type} `{Database DB} {upload tensor : Type} `{Utils upload tensor}
    (remedies_data : gmap string string) (i : inputs upload) (w : world DB) o w' :
  is_Some (user w) →
  routing remedies_data i w = (o, w') → session w' = session w.
Proof.
  intros [u Hu] Hrun. rewrite (routing_logged_in _ _ _ u Hu) in Hrun.
  destruct (page w =? "home");
    [by apply (home_page_keeps_session remedies_data i _ _ _ Hrun)|].
  destruct (page w =? "history");
    [by apply (history_page_keeps_session _ _ _ Hrun)|].
  destruct (page w =? "profile");
    [by apply (profile_page_keeps_session i _ _ _ Hrun)|].
  by injection Hrun as <- <-.
Qed.

Lemma nav_click_routed {upload : Type} (i : inputs upload) p :
  nav_click i = Some p → p ∈ routed_pages.
Proof.
  unfold nav_click, routed_pages.
  destruct (in_btn_home i), (in_btn_history i), (in_btn_profile i);
    intros [= <-]; set_solver.
Qed.

(** How a run of [main] can change the session. *)
Lemma main_session_cases
    {DB : Type} `{Database DB} {upload tensor : Type} `{Utils upload tensor}
    (remedies_data : gmap string string) (i : inputs upload) (w : world DB) o w' :
  main remedies_data i w = (o, w') →
  match user w with
  | None =>
      user w' = None
      ∨ ∃ u, user w' = Some u ∧ page w' = "home" ∧ o = Rerun
             ∧ in_login_submit i = true
             ∧ authenticate_user (db w) (in_login_username i) (in_login_password i)
               = inr (Some u)
  | Some u =>
      (user w' = Some u
       ∧ (page w' = page w ∨ (o = Rerun ∧ nav_click i = Some (page w'))))
      ∨ (user w' = None ∧ page w' = "login" ∧ o = Rerun
         ∧ in_btn_logout i = true)
  end.
Proof.
  intros Hrun. destruct (user w) as [u|] eqn:Hu.
  - rewrite (main_logged_in _ _ _ u Hu) in Hrun. unfold bind in Hrun.
    rewrite sidebar_run in Hrun.
    destruct (nav_click i) as [p|] eqn:Hnav.
    { injection Hrun as <- <-. left. split; [exact Hu|]. right. by split. }
    destruct (in_btn_logout i) eqn:Hlogout.
    { injection Hrun as <- <-. right. by repeat split. }
    apply routing_keeps_session in Hrun; [|by rewrite Hu].
    injection Hrun as Hu' Hp'. left. split; [by rewrite Hu', Hu | by left].
  - destruct (main_logged_out remedies_data i w Hu) as [_ Hmain].
    rewrite Hmain in Hrun. unfold bind at 1, st at 1 in Hrun.
    rewrite auth_page_unfold in Hrun. cbn [db user page out calls] in Hrun.
    unfold bind in Hrun.
    destruct (in_login_submit i) eqn:Hsubmit.
    + rewrite (login_form_run _ _ Hsubmit) in Hrun. cbn [db user page out calls] in Hrun.
      destruct (authenticate_user (db w) _ _) as [e|[u|]] eqn:Hauth.
      * injection Hrun as <- <-. by left.
      * injection Hrun as <- <-. right. exists u. by repeat split.
      * apply signup_form_ends in Hrun as [Hu' _]. left. by rewrite Hu'.
    + rewrite (login_form_idle _ _ Hsubmit) in Hrun.
      apply signup_form_ends in Hrun as [Hu' _]. left. by rewrite Hu'.
Qed.

(** X9: a run of [main] sets the session user only from a login: if the
    session user after the run is [u], then [u] was the session user
    before, or nobody was logged in, the login form was submitted and
    [authenticate_user] returned [u] for the typed username and password
    (and then the page is 'home' and a rerun is requested).  The session
    user is cleared only by a click on "Logout". *)
Theorem session_user_comes_from_login
    {DB : Type} `{Database DB} {upload tensor : Type} `{Utils upload tensor}
    (remedies_data : gmap string string) (i : inputs upload) (w : world DB) o w' :
  main remedies_data i w = (o, w') →
  (∀ u, user w' = Some u →
        user w = Some u
        ∨ (user w = None
           ∧ in_login_submit i = true
           ∧ authenticate_user (db w) (in_login_username i) (in_login_password i)
             = inr (Some u)
           ∧ page w' = "home" ∧ o = Rerun))
  ∧ (user w' = None → user w = None ∨ in_btn_logout i = true).
Proof.
  intros Hrun. pose proof (main_session_cases _ _ _ _ _ Hrun) as Hcases.
  destruct (user w) as [u0|]; split.
  - intros u Hu'. left.
    destruct Hcases as [[Hsame _]|[Hnone _]]; congruence.
  - intros Hnone. right.
    destruct Hcases as [[Hsame _]|(_ & _ & _ & Hlogout)]; [congruence | exact Hlogout].
  - intros u Hu'. right.
    destruct Hcases as [Hnone|(u1 & Hu1 & Hpage & Ho & Hsubmit & Hauth)];
      [congruence|].
    rewrite Hu1 in Hu'. injection Hu' as <-. by repeat split.
  - intros _. by left.
Qed.

Lemma session_user_comes_from_login_witness :
  let r := main (H := SpecDb.database Sample.hash) (H0 := Sample.utils)
             Sample.remedies (Sample.log_in "alice" "secret") Sample.logged_out in
  user r.2 = Some Sample.alice
  ∧ SpecDb.authenticate_user Sample.hash Sample.store "alice" "secret"
    = inr (Some Sample.alice)
  ∧ page r.2 = "home" ∧ r.1 = Rerun.
Proof.
  intros r.
  destruct (session_user_comes_from_login (H := SpecDb.database Sample.hash)
              (H0 := Sample.utils) Sample.remedies
              (Sample.log_in "alice" "secret") Sample.logged_out r.1 r.2
              (surjective_pairing r)) as [Hlogin _].
  assert (user r.2 = Some Sample.alice) as Hu by (vm_compute; reflexivity).
  destruct (Hlogin Sample.alice Hu) as [Hold|(_ & _ & Hauth & Hpage & Ho)];
    [discriminate Hold|].
  by repeat split.
Defined.

Lemma main_keeps_session_ok
    {DB : Type} `{Database DB} {upload tensor : Type} `{Utils upload tensor}
    (remedies_data : gmap string string) (i : inputs upload) (w : world DB) o w' :
  session_ok w → main remedies_data i w = (o, w') → session_ok w'.
Proof.
  intros Hok Hrun. pose proof (main_session_cases _ _ _ _ _ Hrun) as Hcases.
  unfold session_ok in *.
  destruct (user w) as [u0|].
  - destruct Hok as [Hnone|Hpage]; [discriminate|].
    destruct Hcases as [[_ [Hsame|[_ Hnav]]]|[Hnone _]].
    + right. by rewrite Hsame.
    + right. by apply (nav_click_routed i).
    + by left.
  - destruct Hcases as [Hnone|(u & _ & Hpage & _)]; [by left|].
    right. rewrite Hpage. apply list_elem_of_here.
Qed.

(** X10: in every world that a session reaches from its initial state
    (nobody logged in, page 'login') by any number of runs of [main], with
    any widget states and any database, a logged-in session is on one of
    the pages 'home', 'history', 'profile': the router never falls through
    its three branches. *)
Theorem reachable_session_is_routed
    {DB : Type} `{Database DB} {upload tensor : Type} `{Utils upload tensor}
    (remedies_data : gmap string string) (runs : list (inputs upload)) (d : DB) :
  session_ok (session_runs remedies_data runs (initial_world d)).
Proof.
  assert (∀ w : world DB, session_ok w →
            session_ok (session_runs remedies_data runs w)) as Hall.
  { induction runs as [|i rest IH]; intros w Hok; simpl; [exact Hok|].
    apply IH.
    apply (main_keeps_session_ok remedies_data i w (main remedies_data i w).1);
      [exact Hok | apply surjective_pairing]. }
  apply Hall. by left.
Qed.

(** X11: for a logged-in user, a click on "Home", "History" or "Profile"
    (the first of them in this order, if several) ends the run of [main]
    with a rerun request and the session page set to that page; the
    sidebar is rendered up to the clicked button, no page body is
    rendered, no database call is made, and the database and the session
    user are unchanged. *)
Theorem navigation_click
    {DB : Type} `{Database DB} {upload tensor : Type} `{Utils upload tensor}
    (remedies_data : gmap string string) (i : inputs upload) (w : world DB)
    (u : User) (p : string) :
  user w = Some u →
  nav_click i = Some p →
  main remedies_data i w
  = (Rerun,
     mkWorld (db w) (user w) p (out w ++ page_config :: sidebar_prefix i) (calls w)).
Proof.
  intros Hu Hnav. rewrite (main_logged_in _ _ _ u Hu). unfold bind.
  rewrite sidebar_run, Hnav. cbn [db user page out calls].
  by rewrite <- app_assoc.
Qed.

Lemma navigation_click_witness :
  main (H := SpecDb.database Sample.hash) (H0 := Sample.utils)
    Sample.remedies Scenario.click_history (Sample.logged_in "home")
  = (Rerun,
     mkWorld Sample.store (Some Sample.alice) "history"
       [page_config; Title "Navigation"; Button "Home"; Button "History"] []).
Proof.
  apply (navigation_click (H := SpecDb.database Sample.hash) (H0 := Sample.utils)
           Sample.remedies Scenario.click_history (Sample.logged_in "home")
           Sample.alice "history" eq_refl eq_refl).
Defined.

(** ** Which database calls a run makes *)

Section CallsUnder.

Context {DB : Type} (I : world DB → Prop) (P : db_call → Prop).

Lemma calls_under_silent {A} (m : M DB A) :
  (∀ w o w', I w → m w = (o, w') → I w' ∧ calls w' = calls w) →
  calls_under I P m.
Proof.
  intros Hm w o w' Hw Hrun. destruct (Hm _ _ _ Hw Hrun) as [HI Hc].
  split; [exact HI|]. exists []. by rewrite app_nil_r.
Qed.

Lemma calls_under_ret {A} (a : A) : calls_under I P (ret (DB := DB) a).
Proof. apply calls_under_silent. by intros w o w' Hw [= <- <-]. Qed.

Lemma calls_under_raise {A} (e : exn) :
  calls_under I P (raise (DB := DB) (A := A) e).
Proof. apply calls_under_silent. by intros w o w' Hw [= <- <-]. Qed.

Lemma calls_under_rerun {A} :
  calls_under I P (experimental_rerun (DB := DB) (A := A)).
Proof. apply calls_under_silent. by intros w o w' Hw [= <- <-]. Qed.

Lemma calls_under_lift {A} (r : exn + A) : calls_under I P (lift (DB := DB) r).
Proof. destruct r; [apply calls_under_raise | apply calls_under_ret]. Qed.

Lemma calls_under_get_user : calls_under I P (get_user (DB := DB)).
Proof. apply calls_under_silent. by intros w o w' Hw [= <- <-]. Qed.

Lemma calls_under_get_page : calls_under I P (get_page (DB := DB)).
Proof. apply calls_under_silent. by intros w o w' Hw [= <- <-]. Qed.

Lemma calls_under_st (e : ui) :
  (∀ w l, I w → I (mkWorld (db w) (user w) (page w) l (calls w))) →
  calls_under I P (st e).
Proof.
  intros HI. apply calls_under_silent. intros w o w' Hw [= <- <-].
  split; [by apply HI | done].
Qed.

Lemma calls_under_set_user (u : option User) :
  (∀ w, I w → I (mkWorld (db w) u (page w) (out w) (calls w))) →
  calls_under I P (set_user u).
Proof.
  intros HI. apply calls_under_silent. intros w o w' Hw [= <- <-].
  split; [by apply HI | done].
Qed.

Lemma calls_under_set_page (p : string) :
  (∀ w, I w → I (mkWorld (db w) (user w) p (out w) (calls w))) →
  calls_under I P (set_page p).
Proof.
  intros HI. apply calls_under_silent. intros w o w' Hw [= <- <-].
  split; [by apply HI | done].
Qed.

Lemma calls_under_bind {A B} (m : M DB A) (k : A → M DB B) :
  calls_under I P m → (∀ a, calls_under I P (k a)) → calls_under I P (bind m k).
Proof.
  intros Hm Hk w o w' Hw Hrun. unfold bind in Hrun.
  destruct (m w) as [[a| |e] w1] eqn:Hmw.
  - destruct (Hm _ _ _ Hw Hmw) as (Hw1 & n1 & Hc1 & Hp1).
    destruct (Hk a _ _ _ Hw1 Hrun) as (Hw' & n2 & Hc2 & Hp2).
    split; [exact Hw'|]. exists (n1 ++ n2).
    split; [by rewrite Hc2, Hc1, app_assoc | by apply Forall_app].
  - injection Hrun as <- <-. by apply (Hm _ _ _ Hw Hmw).
  - injection Hrun as <- <-. by apply (Hm _ _ _ Hw Hmw).
Qed.

Lemma calls_under_try_except {A} (body : M DB A) (handler : exn → M DB A) :
  calls_under I P body → (∀ e, calls_under I P (handler e)) →
  calls_under I P (try_except body handler).
Proof.
  intros Hb Hh w o w' Hw Hrun. unfold try_except in Hrun.
  destruct (body w) as [[a| |e] w1] eqn:Hbw.
  - injection Hrun as <- <-. by apply (Hb _ _ _ Hw Hbw).
  - injection Hrun as <- <-. by apply (Hb _ _ _ Hw Hbw).
  - destruct (Hb _ _ _ Hw Hbw) as (Hw1 & n1 & Hc1 & Hp1).
    destruct (Hh e _ _ _ Hw1 Hrun) as (Hw' & n2 & Hc2 & Hp2).
    split; [exact Hw'|]. exists (n1 ++ n2).
    split; [by rewrite Hc2, Hc1, app_assoc | by apply Forall_app].
Qed.

Lemma calls_under_for_each {A} (l : list A) (body : A → M DB unit) :
  (∀ x, calls_under I P (body x)) → calls_under I P (for_each l body).
Proof.
  intros Hb. induction l as [|x t IH]; simpl.
  - apply calls_under_ret.
  - apply calls_under_bind; [apply Hb | intros _; exact IH].
Qed.

Lemma calls_under_db_read {A} (c : db_call) (g : DB → exn + A) :
  P c →
  (∀ w l, I w → I (mkWorld (db w) (user w) (page w) (out w) l)) →
  calls_under I P (db_read c g).
Proof.
  intros Hc HI [d us pg o0 cs] o w' Hw. unfold db_read. run_script.
  specialize (HI _ (cs ++ [c]) Hw). cbn in HI.
  destruct (g d); intros [= <- <-]; (split; [exact HI|]);
    exists [c]; by repeat constructor.
Qed.

Lemma calls_under_db_write (c : db_call) (g : DB → exn + DB) :
  P c →
  (∀ w d l, I w → I (mkWorld d (user w) (page w) (out w) l)) →
  calls_under I P (db_write c g).
Proof.
  intros Hc HI [d us pg o0 cs] o w' Hw. unfold db_write. run_script.
  destruct (g d) as [e|d']; intros [= <- <-].
  - split; [apply (HI _ d (cs ++ [c]) Hw)|]. exists [c]. by repeat constructor.
  - split; [apply (HI _ d' (cs ++ [c]) Hw)|]. exists [c]. by repeat constructor.
Qed.

End CallsUnder.

(** Under [logged_in_as u], [st.session_state.user['id']] is the id of
    [u]. *)
Lemma calls_under_session_user_id {DB B : Type} (u : User) (P : db_call → Prop)
    (k : nat → M DB B) :
  calls_under (logged_in_as u) P (k (u_id u)) →
  calls_under (logged_in_as u) P (bind session_user_id k).
Proof.
  intros Hk [d us pg o0 cs] o w' Hw. unfold logged_in_as in Hw. simpl in Hw.
  subst us. unfold bind, session_user_id, get_user, ret. cbn.
  intros Hrun. apply (Hk _ _ _ (eq_refl : logged_in_as u (mkWorld d (Some u) pg o0 cs)) Hrun).
Qed.

Ltac calls_under_step :=
  lazymatch goal with
  | |- calls_under (logged_in_as _) _ (bind session_user_id _) =>
      apply calls_under_session_user_id
  | |- calls_under _ _ (bind _ _) => apply calls_under_bind; [|intros ?]
  | |- calls_under _ _ (try_except _ _) => apply calls_under_try_except; [|intros ?]
  | |- calls_under _ _ (st _) => apply calls_under_st; intros; assumption
  | |- calls_under _ _ (ret _) => apply calls_under_ret
  | |- calls_under _ _ (raise _) => apply calls_under_raise
  | |- calls_under _ _ experimental_rerun => apply calls_under_rerun
  | |- calls_under _ _ (lift _) => apply calls_under_lift
  | |- calls_under _ _ get_user => apply calls_under_get_user
  | |- calls_under _ _ get_page => apply calls_under_get_page
  | |- calls_under _ _ (set_user _) => apply calls_under_set_user; intros; exact I
  | |- calls_under _ _ (set_page _) => apply calls_under_set_page; intros; assumption
  | |- calls_under _ _ (db_read _ _) =>
      apply calls_under_db_read; [done | intros; assumption]
  | |- calls_under _ _ (db_write _ _) =>
      apply calls_under_db_write; [done | intros; assumption]
  | |- calls_under _ _ (for_each _ _) => apply calls_under_for_each; intros ?
  | |- calls_under _ _ (if ?b then _ else _) => destruct b
  | |- calls_under _ _ (match ?x with _ => _ end) => destruct x
  end.

Lemma auth_page_calls {DB : Type} `{Database DB} {upload : Type} (i : inputs upload) :
  calls_under (fun _ => True) is_auth_call (auth_page (DB := DB) i).
Proof.
  unfold auth_page, login_form, signup_form. repeat calls_under_step.
Qed.

Lemma home_page_calls
    {DB : Type} `{Database DB} {upload tensor : Type} `{Utils upload tensor}
    (remedies_data : gmap string string) (i : inputs upload) (u : User) :
  calls_under (DB := DB) (logged_in_as u) (is_call_for (u_id u))
    (home_page remedies_data i).
Proof.
  unfold home_page, home_page_predict. repeat calls_under_step.
Qed.

Lemma history_page_calls
    {DB : Type} `{Database DB} {upload tensor : Type} `{Utils upload tensor}
    (u : User) :
  calls_under (DB := DB) (logged_in_as u) (is_call_for (u_id u)) history_page.
Proof.
  unfold history_page, history_entry. repeat calls_under_step.
Qed.

Lemma profile_page_calls
    {DB : Type} `{Database DB} {upload : Type} (i : inputs upload) (u : User) :
  calls_under (DB := DB) (logged_in_as u) (is_call_for (u_id u)) (profile_page i).
Proof.
  unfold profile_page. repeat calls_under_step.
Qed.

(** X12: every run of [main] only appends to the database calls.  With
    nobody logged in, the calls it makes are [authenticate_user] and
    [create_user] only.  With the user [u] logged in, it never calls
    those two, and every prediction it saves or lists and every user row
    it reads is that of the id of [u]. *)
Theorem main_calls_discipline
    {DB : Type} `{Database DB} {upload tensor : Type} `{Utils upload tensor}
    (remedies_data : gmap string string) (i : inputs upload) (w : world DB) o w' :
  main remedies_data i w = (o, w') →
  ∃ new,
    calls w' = calls w ++ new
    ∧ match user w with
      | None => Forall is_auth_call new
      | Some u => Forall (is_call_for (u_id u)) new
      end.
Proof.
  intros Hrun. destruct (user w) as [u|] eqn:Hu.
  - rewrite (main_logged_in _ _ _ u Hu) in Hrun. unfold bind in Hrun.
    rewrite sidebar_run in Hrun.
    destruct (nav_click i) as [p|].
    { injection Hrun as <- <-. exists []. by rewrite app_nil_r. }
    destruct (in_btn_logout i).
    { injection Hrun as <- <-. exists []. by rewrite app_nil_r. }
    cbn [db user page out calls] in Hrun.
    erewrite routing_logged_in in Hrun by exact Hu. cbn [page] in Hrun.
    destruct (page w =? "home").
    { eapply home_page_calls in Hrun as (_ & new & Hc & Hall); [|exact Hu].
      exists new. split; [exact Hc | exact Hall]. }
    destruct (page w =? "history").
    { eapply history_page_calls in Hrun as (_ & new & Hc & Hall); [|exact Hu].
      exists new. split; [exact Hc | exact Hall]. }
    destruct (page w =? "profile").
    { eapply profile_page_calls in Hrun as (_ & new & Hc & Hall); [|exact Hu].
      exists new. split; [exact Hc | exact Hall]. }
    injection Hrun as <- <-. exists []. by rewrite app_nil_r.
  - destruct (main_logged_out remedies_data i w Hu) as [_ Hmain].
    rewrite Hmain in Hrun. unfold bind at 1, st at 1 in Hrun.
    eapply auth_page_calls in Hrun as (_ & new & Hc & Hall); [|exact I].
    exists new. split; [exact Hc | exact Hall].
Qed.

Lemma main_calls_discipline_witness :
  let r := main (H := SpecDb.database Sample.hash) (H0 := Sample.utils)
             Sample.remedies (Scenario.predict "eye.png") (Sample.logged_in "home") in
  ∃ new, calls r.2 = calls (Sample.logged_in "home") ++ new
         ∧ Forall (is_call_for 1) new.
Proof.
  intros r.
  apply (main_calls_discipline (H := SpecDb.database Sample.hash)
           (H0 := Sample.utils) Sample.remedies (Scenario.predict "eye.png")
           (Sample.logged_in "home") r.1 r.2 (surjective_pairing r)).
Defined.

(** ** What the home page stores *)

#[local] Arguments Numpy.item : simpl never.
#[local] Arguments Numpy.argmax : simpl never.

(** How a run of lines 118-151 can end, for any array the model
    returns. *)
Lemma home_page_predict_ends
    {DB : Type} `{Database DB} {upload tensor : Type} `{Utils upload tensor}
    (remedies_data : gmap string string) (image_path : string)
    (a : list (list Q)) (w : world DB) o w' :
  home_page_predict remedies_data image_path a w = (o, w') →
  (∃ e, o = Raised e ∧ w' = w)
  ∨ ∃ u idx c p,
      user w = Some u
      ∧ Numpy.argmax a = inr idx
      ∧ class_names !! idx = Some c
      ∧ Numpy.item a 0 idx = inr p
      ∧ calls w' = calls w ++ [CallSavePrediction (u_id u) image_path c p]
      ∧ session w' = session w
      ∧ ((o = Done tt
          ∧ save_prediction (db w) (u_id u) image_path c p = inr (db w')
          ∧ out w' = out w ++ prediction_results remedies_data a c p)
         ∨ (∃ e, o = Raised e
                 ∧ save_prediction (db w) (u_id u) image_path c p = inl e
                 ∧ db w' = db w ∧ out w' = out w)).
Proof.
  unfold home_page_predict, list_getitem. destruct w as [d us pg o0 cs].
  run_script.
  destruct (Numpy.argmax a) as [e|idx] eqn:Hidx; cbn;
    [intros [= <- <-]; left; eauto|].
  destruct (class_names !! idx) as [c|] eqn:Hc; cbn;
    [|intros [= <- <-]; left; eauto].
  destruct (Numpy.item a 0 idx) as [e|p] eqn:Hp; cbn;
    [intros [= <- <-]; left; eauto|].
  destruct us as [u|]; cbn; [|intros [= <- <-]; left; eauto].
  destruct (save_prediction d (u_id u) image_path c p) as [e|d'] eqn:Hs; cbn;
    intros [= <- <-]; right; exists u, idx, c, p; cbn;
    repeat (split; [done|]).
  - right. exists e. by repeat split.
  - left. repeat (split; [done|]).
    unfold prediction_results. by rewrite <- !app_assoc.
Qed.

(** X13: a run of [home_page] never asks for a rerun and never changes
    the session.  Either it makes no database call and leaves the database
    as it was, or "Predict" was clicked on an uploaded file and it makes
    exactly one call, [save_prediction] for the session user with a class
    of [class_names]: if that call returns, the run completes with the
    database the call returned; if it raises, the run ends with that
    exception and the database is unchanged. *)
Theorem home_page_writes_once
    {DB : Type} `{Database DB} {upload tensor : Type} `{Utils upload tensor}
    (remedies_data : gmap string string) (i : inputs upload) (w : world DB) o w' :
  home_page remedies_data i w = (o, w') →
  o ≠ Rerun
  ∧ session w' = session w
  ∧ ((db w' = db w ∧ calls w' = calls w)
     ∨ ∃ u path c p,
         in_predict i = true ∧ is_Some (in_uploaded_file i)
         ∧ user w = Some u ∧ c ∈ class_names
         ∧ calls w' = calls w ++ [CallSavePrediction (u_id u) path c p]
         ∧ ((o = Done tt ∧ save_prediction (db w) (u_id u) path c p = inr (db w'))
            ∨ (∃ e, o = Raised e
                    ∧ save_prediction (db w) (u_id u) path c p = inl e
                    ∧ db w' = db w))).
Proof.
  unfold home_page. destruct w as [d us pg o0 cs].
  destruct (in_uploaded_file i) as [f|] eqn:Hf; run_script;
    [|intros [= <- <-]; repeat split; try done; by left].
  destruct (image_open f) as [e|[]]; cbn;
    [intros [= <- <-]; repeat split; try done; by left|].
  destruct (in_predict i) eqn:Hclick; cbn;
    [|intros [= <- <-]; repeat split; try done; by left].
  destruct (save_uploaded_file f) as [e|path]; cbn;
    [intros [= <- <-]; repeat split; try done; by left|].
  destruct (preprocess_image path) as [e|img]; cbn;
    [intros [= <- <-]; repeat split; try done; by left|].
  destruct (model_predict img) as [e|a]; cbn;
    [intros [= <- <-]; repeat split; try done; by left|].
  intros Hrun.
  apply home_page_predict_ends in Hrun
    as [(e & -> & ->)|(u & idx & c & p & Hu & _ & Hc & _ & Hcalls & Hsess & Hend)].
  { repeat split; try done. by left. }
  cbn in Hu, Hcalls, Hsess, Hend.
  assert (o ≠ Rerun) as Ho
    by (destruct Hend as [(-> & _)|(e & -> & _)]; discriminate).
  split; [exact Ho|]. split; [exact Hsess|]. right.
  exists u, path, c, p. split; [done|]. split; [by eexists|].
  split; [exact Hu|]. split; [by eapply list_elem_of_lookup_2|].
  split; [exact Hcalls|].
  destruct Hend as [(-> & Hs & _)|(e & -> & Hs & Hd & _)].
  - left. by split.
  - right. exists e. by repeat split.
Qed.

Lemma home_page_writes_once_witness :
  let r := home_page (H := SpecDb.database Sample.hash) (H0 := Sample.utils)
             Sample.remedies (Scenario.predict "eye.png") (Sample.logged_in "home") in
  r.1 ≠ Rerun ∧ session r.2 = (Some Sample.alice, "home").
Proof.
  intros r.
  destruct (home_page_writes_once (H := SpecDb.database Sample.hash)
              (H0 := Sample.utils) Sample.remedies (Scenario.predict "eye.png")
              (Sample.logged_in "home") r.1 r.2 (surjective_pairing r))
    as (Ho & Hs & _).
  split; [exact Ho | exact Hs].
Defined.

(** X14: [np.argmax] is taken over the whole array.  If the model
    returns more than one row, the first row is at least as long as
    [class_names], and some score of a later row is larger than every
    score of the first row, then the class lookup is out of bounds: the
    run ends with [IndexError] and nothing is stored or rendered. *)
Theorem batch_maximum_outside_first_row
    {DB : Type} `{Database DB} {upload tensor : Type} `{Utils upload tensor}
    (remedies_data : gmap string string) (image_path : string)
    (row : list Q) (rest : list (list Q)) (y : Q) (w : world DB) :
  (length class_names ≤ length row)%nat →
  y ∈ concat rest →
  (∀ x, x ∈ row → (x < y)%Q) →
  home_page_predict remedies_data image_path (row :: rest) w
  = (Raised IndexError, w).
Proof.
  intros Hlen Hy Hlt.
  assert (concat (row :: rest) ≠ []) as Hne.
  { simpl. intros Heq. apply app_eq_nil in Heq as [_ Heq].
    rewrite Heq in Hy. by apply elem_of_nil in Hy. }
  destruct (argmax_flat_spec _ Hne) as (idx & Hidx & x & Hx & Hmax & _).
  apply (home_page_predict_index_error _ _ _ _ idx); [exact Hidx|].
  apply lookup_ge_None_2.
  destruct (decide (idx < length row)%nat) as [Hin|Hout]; [|lia].
  exfalso. simpl in Hx, Hmax. rewrite lookup_app_l in Hx by exact Hin.
  apply list_elem_of_lookup_1 in Hy as [k Hk].
  specialize (Hmax (length row + k)%nat y).
  rewrite lookup_app_r in Hmax by lia.
  replace (length row + k - length row)%nat with k in Hmax by lia.
  specialize (Hmax Hk). specialize (Hlt x (list_elem_of_lookup_2 _ _ _ Hx)). lra.
Qed.

Lemma batch_maximum_outside_first_row_witness :
  home_page_predict (H := SpecDb.database Sample.hash) (H0 := Sample.utils)
    Sample.remedies "uploads/eye.png" Scenario.batch (Sample.logged_in "home")
  = (Raised IndexError, Sample.logged_in "home").
Proof.
  apply (batch_maximum_outside_first_row (H := SpecDb.database Sample.hash)
           (H0 := Sample.utils) Sample.remedies "uploads/eye.png"
           [1#10; 2#10; 3#10; 4#10] [[0; 0; 9#10; 0]] (9#10)
           (Sample.logged_in "home")).
  - simpl. lia.
  - simpl. apply list_elem_of_In. simpl. tauto.
  - intros x Hx. apply list_elem_of_In in Hx. simpl in Hx.
    destruct Hx as [<-|[<-|[<-|[<-|[]]]]]; reflexivity.
Defined.

(** ** Runs one after the other *)

Lemma signup_form_idle {DB : Type} `{Database DB} {upload : Type}
    (i : inputs upload) (w : world DB) :
  in_signup_submit i = false →
  signup_form i w
  = (Done tt, mkWorld (db w) (user w) (page w) (out w ++ signup_widgets) (calls w)).
Proof.
  intros Hsubmit. unfold signup_form. rewrite Hsubmit.
  destruct w as [d us pg o cs]. run_script.
  unfold signup_widgets. rewrite <- !app_assoc. reflexivity.
Qed.

Lemma home_page_no_file
    {DB : Type} `{Database DB} {upload tensor : Type} `{Utils upload tensor}
    (remedies_data : gmap string string) (i : inputs upload) (w : world DB) :
  in_uploaded_file i = None →
  home_page remedies_data i w
  = (Done tt, mkWorld (db w) (user w) (page w) (out w ++ upload_widgets) (calls w)).
Proof.
  intros Hf. unfold home_page. rewrite Hf.
  destruct w as [d us pg o cs]. run_script.
  unfold upload_widgets. rewrite <- !app_assoc. reflexivity.
Qed.

(** X15: with nobody logged in and neither form submitted, a run of
    [main] completes after rendering the page configuration, the header
    of the authentication page and both forms; it makes no database call
    and leaves the database and the session as they were. *)
Theorem logged_out_idle_run
    {DB : Type} `{Database DB} {upload tensor : Type} `{Utils upload tensor}
    (remedies_data : gmap string string) (i : inputs upload) (w : world DB) :
  user w = None →
  in_login_submit i = false →
  in_signup_submit i = false →
  main remedies_data i w
  = (Done tt,
     mkWorld (db w) (user w) (page w)
       (out w ++ page_config :: auth_header i ++ login_widgets ++ signup_widgets)
       (calls w)).
Proof.
  intros Hu Hlogin Hsignup.
  destruct (main_logged_out remedies_data i w Hu) as [_ ->].
  unfold bind at 1, st at 1. rewrite auth_page_unfold. unfold bind.
  rewrite (login_form_idle _ _ Hlogin), (signup_form_idle _ _ Hsignup).
  cbn [db user page out calls]. rewrite <- !app_assoc. reflexivity.
Qed.

Lemma logged_out_idle_run_witness :
  main (H := SpecDb.database Sample.hash) (H0 := Sample.utils)
    Sample.remedies Sample.idle Sample.logged_out
  = (Done tt,
     mkWorld Sample.store None "login"
       (page_config :: auth_header Sample.idle ++ login_widgets ++ signup_widgets)
       []).
Proof.
  apply (logged_out_idle_run (H := SpecDb.database Sample.hash)
           (H0 := Sample.utils) Sample.remedies Sample.idle Sample.logged_out
           eq_refl eq_refl eq_refl).
Defined.

(** X16: a login goes to the home page.  If nobody is logged in, the
    login form is submitted and [authenticate_user] returns [u], the run
    of [main] ends with a rerun request after one database call; the next
    run, with no button clicked and no file chosen, completes for the
    session user [u] with the sidebar and the upload section of
    [home_page], makes no database call and leaves the database as it
    was. *)
Theorem login_then_home
    {DB : Type} `{Database DB} {upload tensor : Type} `{Utils upload tensor}
    (remedies_data : gmap string string) (i i' : inputs upload)
    (w : world DB) (u : User) :
  user w = None →
  in_login_submit i = true →
  authenticate_user (db w) (in_login_username i) (in_login_password i)
  = inr (Some u) →
  nav_click i' = None →
  in_btn_logout i' = false →
  in_uploaded_file i' = None →
  let first := main remedies_data i w in
  first.1 = Rerun
  ∧ calls first.2
    = calls w ++ [CallAuthenticateUser (in_login_username i) (in_login_password i)]
  ∧ main remedies_data i' first.2
    = (Done tt,
       mkWorld (db w) (Some u) "home"
         (out first.2 ++ page_config :: sidebar_elements i' ++ upload_widgets)
         (calls first.2)).
Proof.
  intros Hu Hsubmit Hauth Hnav Hlogout Hfile first.
  assert (first
          = (Rerun,
             mkWorld (db w) (Some u) "home"
               ((out w ++ [page_config]) ++ auth_header i ++ login_widgets
                ++ [Success "Login successful!"])
               (calls w ++ [CallAuthenticateUser (in_login_username i)
                              (in_login_password i)]))) as ->.
  { subst first. destruct (main_logged_out remedies_data i w Hu) as [_ ->].
    unfold bind at 1, st at 1. rewrite auth_page_unfold. unfold bind.
    rewrite (login_form_run _ _ Hsubmit). cbn [db user page out calls].
    rewrite Hauth. by rewrite <- !app_assoc. }
  cbn [fst snd calls out]. split; [reflexivity|]. split; [reflexivity|].
  erewrite main_logged_in by reflexivity. unfold bind.
  rewrite sidebar_run, Hnav, Hlogout. cbn [db user page out calls].
  erewrite routing_logged_in by reflexivity. cbn [page].
  rewrite home_page_no_file by exact Hfile. cbn [db user page out calls].
  rewrite <- !app_assoc. reflexivity.
Qed.

Lemma login_then_home_witness :
  let first := main (H := SpecDb.database Sample.hash) (H0 := Sample.utils)
                 Sample.remedies (Sample.log_in "alice" "secret")
                 Sample.logged_out in
  first.1 = Rerun
  ∧ calls first.2 = [CallAuthenticateUser "alice" "secret"]
  ∧ (main (H := SpecDb.database Sample.hash) (H0 := Sample.utils)
       Sample.remedies Sample.idle first.2).1 = Done tt.
Proof.
  intros first.
  destruct (login_then_home (H := SpecDb.database Sample.hash)
              (H0 := Sample.utils) Sample.remedies
              (Sample.log_in "alice" "secret") Sample.idle Sample.logged_out
              Sample.alice eq_refl eq_refl eq_refl eq_refl eq_refl eq_refl)
    as (Hrerun & Hcalls & Hnext).
  split; [exact Hrerun|]. split; [exact Hcalls|].
  subst first. by rewrite Hnext.
Defined.

(** X17: with nobody logged in, a run of [main] ends with an exception
    only if the login form was submitted and [authenticate_user] raised
    that exception; the database and the session are then as they were.
    (An exception of [create_user] is caught by [signup_form].) *)
Theorem logged_out_exception_is_login_failure
    {DB : Type} `{Database DB} {upload tensor : Type} `{Utils upload tensor}
    (remedies_data : gmap string string) (i : inputs upload)
    (w : world DB) (e : exn) w' :
  user w = None →
  main remedies_data i w = (Raised e, w') →
  in_login_submit i = true
  ∧ authenticate_user (db w) (in_login_username i) (in_login_password i) = inl e
  ∧ db w' = db w
  ∧ session w' = session w.
Proof.
  intros Hu Hrun.
  destruct (main_logged_out remedies_data i w Hu) as [_ Hmain].
  rewrite Hmain in Hrun. unfold bind at 1, st at 1 in Hrun.
  rewrite auth_page_unfold in Hrun. cbn [db user page out calls] in Hrun.
  unfold bind in Hrun.
  destruct (in_login_submit i) eqn:Hsubmit.
  - rewrite (login_form_run _ _ Hsubmit) in Hrun.
    cbn [db user page out calls] in Hrun.
    destruct (authenticate_user (db w) _ _) as [e0|[u|]] eqn:Hauth.
    + injection Hrun as <- <-. by repeat split.
    + discriminate Hrun.
    + apply signup_form_ends in Hrun as [_ [[Ho _]|[Ho _]]]; discriminate Ho.
  - rewrite (login_form_idle _ _ Hsubmit) in Hrun.
    apply signup_form_ends in Hrun as [_ [[Ho _]|[Ho _]]]; discriminate Ho.
Qed.

Lemma logged_out_exception_is_login_failure_witness :
  let w := mkWorld tt None "login" [] [] in
  let r := main (H := offline_database) (H0 := Sample.utils)
             Sample.remedies (Sample.log_in "alice" "secret") w in
  r.1 = Raised offline_error ∧ db r.2 = tt ∧ session r.2 = (None, "login").
Proof.
  intros w r.
  assert (r = (Raised offline_error, r.2)) as Hrun by (vm_compute; reflexivity).
  destruct (logged_out_exception_is_login_failure (H := offline_database)
              (H0 := Sample.utils) Sample.remedies
              (Sample.log_in "alice" "secret") w offline_error r.2 eq_refl Hrun)
    as (_ & _ & Hdb & Hsession).
  split; [by rewrite Hrun|]. split; [exact Hdb | exact Hsession].
Defined.
